(** * CourseFindr: the matching and scoring engine

    A shallow embedding of [app/services/recommendation_engine.py] together
    with the request and response schemas of [app/schemas/recommendation.py]
    and the columns of [app/models/course.py] that the engine reads.

    Conventions of the embedding:
    - Python floats are exact rationals ([Q]); rounding is not modelled.
      Literals are written as in the source ([0.7], [1.0], ...).
    - Python [str] is [string]; [str.lower] acts on the ASCII letters.
    - [Optional[T]] is [option T]; Python truthiness ([if x:], [x and y],
      [not x]) is the class [Truthy].
    - scikit-learn (TfidfVectorizer, cosine_similarity) is an interface,
      the class [Tfidf]; a call that raises returns [None].
    - a function that may raise returns a [Result]; the engine object
      [self] is passed and returned explicitly. *)

From Stdlib Require Import Bool List String Ascii ZArith QArith Lia Lqa.
From Stdlib Require Import Permutation Sorted DecimalString.
Import ListNotations.

Open Scope string_scope.
Open Scope Q_scope.

(** ** Python primitives *)

(** Truthiness, as tested by [if], [and], [not]. *)
Class Truthy (A : Type) := truthy : A -> bool.

#[export] Instance Truthy_str : Truthy string :=
  fun s => negb (s =? EmptyString)%string.
#[export] Instance Truthy_float : Truthy Q :=
  fun x => negb (Qeq_bool x 0).
#[export] Instance Truthy_int : Truthy Z :=
  fun n => negb (n =? 0)%Z.
#[export] Instance Truthy_list {A} : Truthy (list A) :=
  fun l => match l with [] => false | _ :: _ => true end.
#[export] Instance Truthy_optional {A} `{Truthy A} : Truthy (option A) :=
  fun o => match o with Some a => truthy a | None => false end.

Module Py.

(** [str.lower] on one character (ASCII range). *)
Definition lower_ascii (c : ascii) : ascii :=
  let n := nat_of_ascii c in
  if ((65 <=? n) && (n <=? 90))%nat then ascii_of_nat (n + 32) else c.

(** [s.lower()] *)
Fixpoint lower (s : string) : string :=
  match s with
  | EmptyString => EmptyString
  | String c t => String (lower_ascii c) (lower t)
  end.

(** [needle in hay] for two strings. *)
Fixpoint contains (needle hay : string) : bool :=
  String.prefix needle hay ||
  match hay with
  | EmptyString => false
  | String _ t => contains needle t
  end.

(** ASCII white space, as removed by [str.strip]. *)
Definition is_space (c : ascii) : bool :=
  let n := nat_of_ascii c in
  ((n =? 32) || ((9 <=? n) && (n <=? 13)))%nat.

Fixpoint lstrip (l : list ascii) : list ascii :=
  match l with
  | c :: t => if is_space c then lstrip t else l
  | [] => []
  end.

(** [s.strip()] *)
Definition strip (s : string) : string :=
  string_of_list_ascii
    (rev (lstrip (rev (lstrip (list_ascii_of_string s))))).

(** [sep.join(parts)] *)
Definition join (sep : string) (parts : list string) : string :=
  String.concat sep parts.

(** [l[:limit]], with Python's reading of a negative bound. *)
Definition slice_to {A} (l : list A) (limit : Z) : list A :=
  if (0 <=? limit)%Z then firstn (Z.to_nat limit) l
  else firstn (List.length l - Z.to_nat (- limit)) l.

(** [enumerate(l)] *)
Definition enumerate {A} (l : list A) : list (nat * A) :=
  combine (seq 0 (List.length l)) l.

(** [x > y] on floats. *)
Definition gt (x y : Q) : bool := negb (Qle_bool x y).

(** [x != y] on strings. *)
Definition ne (x y : string) : bool := negb (x =? y)%string.

(** [numpy.mean] of a non-empty list. *)
Definition mean (l : list Q) : Q :=
  fold_right Qplus 0 l / inject_Z (Z.of_nat (List.length l)).

(** [list.sort(key=key, reverse=True)]: the sort is stable, and
    [reverse=True] keeps elements with equal keys in their original
    order.  An element is inserted in front of the first element of
    the sorted tail whose key is not greater than its own. *)
Section Sort.
Context {A : Type} (key : A -> Q).

Fixpoint insert_desc (x : A) (l : list A) : list A :=
  match l with
  | [] => [x]
  | y :: t => if gt (key y) (key x) then y :: insert_desc x t
              else x :: y :: t
  end.

Definition sort_desc (l : list A) : list A :=
  fold_right insert_desc [] l.

End Sort.

End Py.

(** Early return: a block of statements either returns a value
    ([Some v]) or falls through to the statements after it ([None]). *)
Definition or_else {A} (block : option A) (rest : A) : A :=
  match block with Some v => v | None => rest end.

Notation "b ';;;' k" := (or_else b k)
  (at level 61, right associativity, only parsing).

(** [o and p(o)] for an optional string [o]. *)
Definition truthy_and (o : option string) (p : string -> bool) : bool :=
  match o with Some s => truthy s && p s | None => false end.

(** Exceptions that can leave the engine. *)
Inductive Exception :=
| ValidationError   (* pydantic: a field constraint is violated *)
| ValueError.       (* scikit-learn: the fitted vocabulary is empty *)

Inductive Result (A : Type) :=
| Ok (a : A)
| Raise (e : Exception).
Arguments Ok {A} a.
Arguments Raise {A} e.

Definition bind {A B} (r : Result A) (k : A -> Result B) : Result B :=
  match r with Ok a => k a | Raise e => Raise e end.

Notation "x <- r ;; k" := (bind r (fun x => k))
  (at level 62, r at next level, right associativity).

(** A list comprehension whose body may raise. *)
Fixpoint traverse {A B} (f : A -> Result B) (l : list A) : Result (list B) :=
  match l with
  | [] => Ok []
  | a :: t => b <- f a ;; bs <- traverse f t ;; Ok (b :: bs)
  end.

(** A pydantic constraint ([ge], [le], [gt], [max_length]). *)
Definition check (b : bool) : Result unit :=
  if b then Ok tt else Raise ValidationError.

Definition in_unit (x : Q) : bool := Qle_bool 0.0 x && Qle_bool x 1.0.

Definition max_length (n : nat) (s : string) : bool :=
  (String.length s <=? n)%nat.

Definition opt_all {A} (p : A -> bool) (o : option A) : bool :=
  match o with Some a => p a | None => true end.


(** ** Data model: [app/models/course.py] *)

Module Skill.
Record t := mk {
  name : string;
  category : option string }.
End Skill.

Module CareerOutcome.
Record t := mk {
  title : string;
  description : option string;
  salary_currency : option string;
  employment_rate : option Q }.
End CareerOutcome.

(** The timestamp columns are left out: the engine does not read them. *)
Module Course.
Record t := mk {
  id : Z;
  name : string;
  description : option string;
  institution : string;
  location_city : option string;
  location_country : option string;
  language_of_instruction : string;
  modality : string;
  duration_months : option Z;
  tuition_fee : option Q;
  currency : option string;
  entry_requirements : option string;
  university_rank : option Z;
  course_level : option string;
  course_code : option string;
  skills : list Skill.t;
  career_outcomes : list CareerOutcome.t }.

Definition with_tuition_fee (fee : option Q) (c : t) : t :=
  mk (id c) (name c) (description c) (institution c) (location_city c)
     (location_country c) (language_of_instruction c) (modality c)
     (duration_months c) fee (currency c) (entry_requirements c)
     (university_rank c) (course_level c) (course_code c) (skills c)
     (career_outcomes c).

(** The constraints of the response schema [app/schemas/course.py]
    ([Course], [Skill], [CareerOutcome]) on the columns above. *)
Definition schema_ok (c : t) : bool :=
  max_length 255 (name c) && max_length 255 (institution c)
  && opt_all (max_length 100) (location_city c)
  && opt_all (max_length 100) (location_country c)
  && max_length 50 (language_of_instruction c)
  && max_length 20 (modality c)
  && opt_all (fun n => (0 <? n)%Z) (duration_months c)
  && opt_all (Qle_bool 0) (tuition_fee c)
  && opt_all (max_length 3) (currency c)
  && opt_all (fun n => (0 <? n)%Z) (university_rank c)
  && opt_all (max_length 50) (course_level c)
  && opt_all (max_length 50) (course_code c)
  && forallb (fun s => max_length 100 (Skill.name s)
                       && opt_all (max_length 50) (Skill.category s))
             (skills c)
  && forallb (fun o => max_length 100 (CareerOutcome.title o)
                       && opt_all (max_length 3)
                                  (CareerOutcome.salary_currency o)
                       && opt_all (fun r => Qle_bool 0 r && Qle_bool r 100)
                                  (CareerOutcome.employment_rate o))
             (career_outcomes c).
End Course.

(** ** Schemas: [app/schemas/recommendation.py] *)

(** A field of the request body: left out, given as [null], or given. *)
Inductive field (A : Type) :=
| Omitted
| Null
| Given (a : A).
Arguments Omitted {A}.
Arguments Null {A}.
Arguments Given {A} a.

(** [Optional[T] = Field(default, ...)] *)
Definition optional {A} (default : option A) (constraint : A -> bool)
    (f : field A) : Result (option A) :=
  match f with
  | Omitted => Ok default
  | Null => Ok None
  | Given a => _ <- check (constraint a) ;; Ok (Some a)
  end.

(** [float = Field(default, ge=0.0, le=1.0)] *)
Definition weight (default : Q) (f : field Q) : Result Q :=
  match f with
  | Omitted => Ok default
  | Null => Raise ValidationError
  | Given w => _ <- check (in_unit w) ;; Ok w
  end.

(** The fields [academic_background], [time_horizon] and
    [university_rank_preference] are unconstrained strings that the engine
    never reads; they are left out. *)
Module RecommendationRequest.
Record t := mk {
  skills : option (list string);
  interests : option (list string);
  location : option string;
  modality : option string;
  language_of_instruction : option string;
  career_goals : option string;
  max_tuition : option Q;
  course_level : option string;
  max_duration_months : option Z;
  skill_weight : Q;
  interest_weight : Q;
  location_weight : Q;
  career_weight : Q }.

Definition with_max_tuition (m : option Q) (r : t) : t :=
  mk (skills r) (interests r) (location r) (modality r)
     (language_of_instruction r) (career_goals r) m (course_level r)
     (max_duration_months r) (skill_weight r) (interest_weight r)
     (location_weight r) (career_weight r).

(** The request body as the client sends it. *)
Record body := mk_body {
  b_skills : field (list string);
  b_interests : field (list string);
  b_location : field string;
  b_modality : field string;
  b_language_of_instruction : field string;
  b_career_goals : field string;
  b_max_tuition : field Q;
  b_course_level : field string;
  b_max_duration_months : field Z;
  b_skill_weight : field Q;
  b_interest_weight : field Q;
  b_location_weight : field Q;
  b_career_weight : field Q }.

Definition any {A} (_ : A) : bool := true.

(** Construction of the model: defaults and constraints of each field. *)
Definition validate (b : body) : Result t :=
  skills <- optional (Some []) any (b_skills b) ;;
  interests <- optional (Some []) any (b_interests b) ;;
  location <- optional None any (b_location b) ;;
  modality <- optional None any (b_modality b) ;;
  language <- optional (Some "English") any (b_language_of_instruction b) ;;
  career_goals <- optional None any (b_career_goals b) ;;
  max_tuition <- optional None (Qle_bool 0) (b_max_tuition b) ;;
  course_level <- optional None any (b_course_level b) ;;
  max_duration <- optional None (fun n => (0 <? n)%Z)
                    (b_max_duration_months b) ;;
  skill_weight <- weight 0.4 (b_skill_weight b) ;;
  interest_weight <- weight 0.3 (b_interest_weight b) ;;
  location_weight <- weight 0.15 (b_location_weight b) ;;
  career_weight <- weight 0.15 (b_career_weight b) ;;
  Ok (mk skills interests location modality language career_goals
         max_tuition course_level max_duration skill_weight interest_weight
         location_weight career_weight).

(** The body [{}]. *)
Definition empty_body : body :=
  mk_body Omitted Omitted Omitted Omitted Omitted Omitted Omitted Omitted
          Omitted Omitted Omitted Omitted Omitted.
End RecommendationRequest.

(** [match_explanation], [skill_matches] and [similar_alternatives] carry no
    constraint and do not enter any score; they are left out. *)
Module CourseMatch.
Record t := mk {
  course : Course.t;
  match_score : Q;
  skill_match_score : Q;
  interest_match_score : Q;
  location_match_score : Q;
  career_match_score : Q;
  missing_requirements : list string }.

(** Construction of the model: every score has [ge=0.0, le=1.0], and the
    nested course is validated against its own schema. *)
Definition validate (m : t) : Result t :=
  _ <- check (Course.schema_ok (course m)) ;;
  _ <- check (in_unit (match_score m)) ;;
  _ <- check (in_unit (skill_match_score m)) ;;
  _ <- check (in_unit (interest_match_score m)) ;;
  _ <- check (in_unit (location_match_score m)) ;;
  _ <- check (in_unit (career_match_score m)) ;;
  Ok m.
End CourseMatch.

(** [search_metadata]: the two dictionaries the engine builds. *)
Inductive SearchMetadata :=
| MetaError (error : string)
| MetaSearch (total_courses_analyzed query_skills_count
              query_interests_count : nat)
             (average_match_score : Q)
             (filter_location filter_modality filter_max_tuition
              filter_course_level : bool).

Module RecommendationResponse.
Record t := mk {
  recommendations : list CourseMatch.t;
  total_matches : nat;
  search_metadata : SearchMetadata;
  suggestions : list string }.
End RecommendationResponse.

(** ** The engine: [app/services/recommendation_engine.py] *)

(** scikit-learn, as the engine uses it.  [fit_transform docs] is
    [TfidfVectorizer(...).fit_transform(docs)], which raises ValueError on
    an empty vocabulary.  [similarity m q i] is the body of the [try] in
    [_calculate_content_similarity]: the query is transformed, row [i] of
    the matrix is taken and their cosine similarity is computed; [None]
    stands for any exception raised on the way. *)
Class Tfidf := {
  Fitted : Type;
  fit_transform : list string -> option Fitted;
  similarity : Fitted -> string -> nat -> option Q }.


Module ScoreData.
Record t := mk {
  course : Course.t;
  total_score : Q;
  content_score : Q;
  location_score : Q;
  career_score : Q;
  filter_score : Q }.
End ScoreData.

Definition Request : Type := RecommendationRequest.t.
Definition Response : Type := RecommendationResponse.t.

Section Engine.
Context `{Tfidf}.

(** [self]: the session is the list of rows [db.query(Course).all()]
    returns; [course_skill_matrix] holds the fitted vectorizer together with
    its matrix, [None] until [_build_skill_vectors] has succeeded. *)
Record CourseRecommendationEngine := mkEngine {
  db : list Course.t;
  course_skill_matrix : option Fitted;
  courses_cache : list Course.t }.

(** [CourseRecommendationEngine(db)] *)
Definition new_engine (db : list Course.t) : CourseRecommendationEngine :=
  mkEngine db None [].

Definition _load_courses (self : CourseRecommendationEngine)
    : CourseRecommendationEngine :=
  mkEngine (db self) (course_skill_matrix self) (db self).

(** The text document of one course. *)
Definition full_doc (course : Course.t) : string :=
  let skills_text :=
    Py.join " " (map (fun skill => Py.lower (Skill.name skill))
                     (Course.skills course)) in
  let careers_text :=
    Py.join " " (map (fun career => Py.lower (CareerOutcome.title career))
                     (Course.career_outcomes course)) in
  let course_text :=
    Py.strip (Py.lower (Course.name course) ++ " " ++
              match Course.description course with
              | Some d => d
              | None => EmptyString
              end) in
  skills_text ++ " " ++ careers_text ++ " " ++ course_text.

Definition _build_skill_vectors (self : CourseRecommendationEngine)
    : Result CourseRecommendationEngine :=
  if negb (truthy (courses_cache self)) then Ok self
  else
    let course_skill_docs := map full_doc (courses_cache self) in
    if truthy course_skill_docs then
      match fit_transform course_skill_docs with
      | Some m => Ok (mkEngine (db self) (Some m) (courses_cache self))
      | None => Raise ValueError
      end
    else Ok self.

Definition initialize (self : CourseRecommendationEngine)
    : Result CourseRecommendationEngine :=
  _build_skill_vectors (_load_courses self).

Definition _build_user_query (request : Request) : string :=
  let query_parts :=
    ((match RecommendationRequest.skills request with
     | Some skills => if truthy skills then map Py.lower skills else []
     | None => []
     end)
    ++
    (match RecommendationRequest.interests request with
     | Some interests =>
         if truthy interests then map Py.lower interests else []
     | None => []
     end)
    ++
    (match RecommendationRequest.career_goals request with
     | Some goals => if truthy goals then [Py.lower goals] else []
     | None => []
     end))%list in
  Py.join " " query_parts.

Definition _calculate_content_similarity (self : CourseRecommendationEngine)
    (user_query : string) (course_index : nat) : Q :=
  match course_skill_matrix self with
  | None => 0.0
  | Some m =>
      if negb (truthy user_query) then 0.0
      else match similarity m user_query course_index with
           | Some s => s
           | None => 0.0   (* except: *)
           end
  end.

Definition _calculate_location_score (course : Course.t) (request : Request)
    : Q :=
  match RecommendationRequest.location request with
  | None => 1.0
  | Some location =>
      if negb (truthy location) then 1.0
      else
        let request_location := Py.lower location in
        if truthy (Course.modality course)
           && (Py.lower (Course.modality course) =? "online")%string
        then 1.0
        else if truthy_and (Course.location_city course)
                  (fun city => Py.contains request_location (Py.lower city))
        then 1.0
        else if truthy_and (Course.location_country course)
                  (fun country =>
                     Py.contains request_location (Py.lower country))
        then 0.7
        else 0.1
  end.

(** The loop over [course.career_outcomes]. *)
Fixpoint career_outcomes_loop (career_goals_lower : string)
    (outcomes : list CareerOutcome.t) : option Q :=
  match outcomes with
  | [] => None
  | career_outcome :: rest =>
      if Py.contains career_goals_lower
           (Py.lower (CareerOutcome.title career_outcome))
      then Some 1.0
      else if truthy_and (CareerOutcome.description career_outcome)
                (fun d => Py.contains career_goals_lower (Py.lower d))
      then Some 0.8
      else career_outcomes_loop career_goals_lower rest
  end.

Definition _calculate_career_score (course : Course.t) (request : Request)
    : Q :=
  match RecommendationRequest.career_goals request with
  | None => 1.0
  | Some career_goals =>
      if negb (truthy career_goals) then 1.0
      else
        let career_goals_lower := Py.lower career_goals in
        career_outcomes_loop career_goals_lower
          (Course.career_outcomes course) ;;;
        (if truthy_and (Course.description course)
              (fun d => Py.contains career_goals_lower (Py.lower d))
         then Some 0.6 else None) ;;;
        0.3
  end.

(** The five blocks of [_calculate_filter_score]. *)
Definition modality_filter (course : Course.t) (request : Request)
    : option Q :=
  match RecommendationRequest.modality request with
  | Some modality =>
      if truthy modality && truthy (Course.modality course) then
        if Py.ne (Py.lower modality) (Py.lower (Course.modality course))
        then Some 0.0 else None
      else None
  | None => None
  end.

Definition language_filter (course : Course.t) (request : Request)
    : option Q :=
  match RecommendationRequest.language_of_instruction request with
  | Some language =>
      if truthy language then
        if Py.ne (Py.lower (Course.language_of_instruction course))
                 (Py.lower language)
        then Some 0.1 else None
      else None
  | None => None
  end.

Definition tuition_filter (course : Course.t) (request : Request)
    : option Q :=
  match RecommendationRequest.max_tuition request, Course.tuition_fee course
  with
  | Some max_tuition, Some tuition_fee =>
      if truthy max_tuition && truthy tuition_fee then
        if Py.gt tuition_fee max_tuition then Some 0.2 else None
      else None
  | _, _ => None
  end.

Definition duration_filter (course : Course.t) (request : Request)
    : option Q :=
  match RecommendationRequest.max_duration_months request,
        Course.duration_months course
  with
  | Some max_duration_months, Some duration_months =>
      if truthy max_duration_months && truthy duration_months then
        if (duration_months >? max_duration_months)%Z then Some 0.3
        else None
      else None
  | _, _ => None
  end.

Definition level_filter (course : Course.t) (request : Request)
    : option Q :=
  match RecommendationRequest.course_level request,
        Course.course_level course
  with
  | Some level, Some course_level =>
      if truthy level && truthy course_level then
        if Py.ne (Py.lower level) (Py.lower course_level) then Some 0.5
        else None
      else None
  | _, _ => None
  end.

Definition _calculate_filter_score (course : Course.t) (request : Request)
    : Q :=
  modality_filter course request ;;;
  language_filter course request ;;;
  tuition_filter course request ;;;
  duration_filter course request ;;;
  level_filter course request ;;;
  1.0.

(** The weighted sum, before the filter score multiplies it. *)
Definition weighted_sum (request : Request)
    (content_score location_score career_score : Q) : Q :=
  content_score * (RecommendationRequest.skill_weight request
                   + RecommendationRequest.interest_weight request)
  + location_score * RecommendationRequest.location_weight request
  + career_score * RecommendationRequest.career_weight request.

Definition _calculate_course_score (self : CourseRecommendationEngine)
    (course : Course.t) (request : Request) (user_query : string)
    (course_index : nat) : ScoreData.t :=
  let content_score :=
    _calculate_content_similarity self user_query course_index in
  let location_score := _calculate_location_score course request in
  let career_score := _calculate_career_score course request in
  let filter_score := _calculate_filter_score course request in
  let total_score :=
    weighted_sum request content_score location_score career_score
    * filter_score in
  ScoreData.mk course total_score content_score location_score career_score
    filter_score.

Definition _create_course_match (score_data : ScoreData.t)
    : Result CourseMatch.t :=
  let course := ScoreData.course score_data in
  let missing_requirements :=
    if truthy (Course.entry_requirements course)
    then ["Please check entry requirements"] else [] in
  CourseMatch.validate
    (CourseMatch.mk course
       (ScoreData.total_score score_data)
       (ScoreData.content_score score_data)
       (ScoreData.content_score score_data)
       (ScoreData.location_score score_data)
       (ScoreData.career_score score_data)
       missing_requirements).

Definition average_match_score (course_scores : list ScoreData.t) : Q :=
  if truthy course_scores
  then Py.mean (map ScoreData.total_score course_scores) else 0.

Definition _generate_search_metadata (self : CourseRecommendationEngine)
    (request : Request) (course_scores : list ScoreData.t)
    : SearchMetadata :=
  MetaSearch
    (List.length (courses_cache self))
    (List.length (match RecommendationRequest.skills request with
                  | Some l => l | None => [] end))
    (List.length (match RecommendationRequest.interests request with
                  | Some l => l | None => [] end))
    (average_match_score course_scores)
    (truthy (RecommendationRequest.location request))
    (truthy (RecommendationRequest.modality request))
    (truthy (RecommendationRequest.max_tuition request))
    (truthy (RecommendationRequest.course_level request)).

Definition _generate_suggestions (request : Request)
    (course_scores : list ScoreData.t) : list string :=
  ((if (List.length course_scores <? 5)%nat
   then ["Try expanding your location preferences or considering online courses"]
   else [])
  ++
  (if negb (truthy (RecommendationRequest.skills request))
   then ["Add specific skills to get more targeted recommendations"]
   else [])
  ++
  (match RecommendationRequest.max_tuition request with
   | Some max_tuition =>
       if truthy max_tuition && Py.gt 10000 max_tuition
       then ["Consider increasing your budget or looking for scholarship opportunities"]
       else []
   | None => []
   end)
  ++
  (if truthy course_scores
      && Py.gt 0.3 (Py.mean (map ScoreData.total_score course_scores))
   then ["Your criteria might be too specific. Try broadening your preferences"]
   else []))%list.

(** The scores of every course of the cache, in catalog order. *)
Definition score_all (self : CourseRecommendationEngine)
    (request : Request) : list ScoreData.t :=
  let user_query := _build_user_query request in
  map (fun '(i, course) =>
         _calculate_course_score self course request user_query i)
      (Py.enumerate (courses_cache self)).

(** [score_data['total_score'] > 0.1] *)
Definition above_threshold (score_data : ScoreData.t) : bool :=
  Py.gt (ScoreData.total_score score_data) 0.1.

(** [course_scores] after the sort. *)
Definition ranked (self : CourseRecommendationEngine) (request : Request)
    : list ScoreData.t :=
  Py.sort_desc ScoreData.total_score
    (filter above_threshold (score_all self request)).

Definition no_courses_response : Response :=
  RecommendationResponse.mk [] 0 (MetaError "No courses available")
    ["Please ensure courses are loaded in the database"].

(** [if not self.courses_cache: self.initialize()] *)
Definition ensure_initialized (self : CourseRecommendationEngine)
    : Result CourseRecommendationEngine :=
  if negb (truthy (courses_cache self)) then initialize self else Ok self.

(** The parameter [limit: int = 20]: [None] when the caller leaves it
    out. *)
Definition limit_or_default (limit : option Z) : Z :=
  match limit with Some n => n | None => 20%Z end.

(** [get_recommendations]: the result, or the exception that leaves the
    call, together with the engine as the call leaves it. *)
Definition get_recommendations (self : CourseRecommendationEngine)
    (request : Request) (limit : option Z)
    : Result Response * CourseRecommendationEngine :=
  match ensure_initialized self with
  | Raise e => (Raise e, _load_courses self)
  | Ok self =>
      if negb (truthy (courses_cache self))
      then (Ok no_courses_response, self)
      else
        let course_scores := ranked self request in
        (recommendations <-
           traverse _create_course_match
             (Py.slice_to course_scores (limit_or_default limit)) ;;
         let metadata :=
           _generate_search_metadata self request course_scores in
         let suggestions := _generate_suggestions request course_scores in
         Ok (RecommendationResponse.mk recommendations
               (List.length course_scores) metadata suggestions),
         self)
  end.

End Engine.

Arguments CourseRecommendationEngine {_}.

(** ** The specification's vocabulary

    The predicates below follow the words of the specification; the
    theorems compare them with the functions above. *)

(** [needle] occurs in [hay]. *)
Definition is_substring (needle hay : string) : Prop :=
  exists pre post, hay = (pre ++ needle ++ post)%string.

(** Case-insensitive substring. *)
Definition substring_ci (needle hay : string) : Prop :=
  is_substring (Py.lower needle) (Py.lower hay).

(** A field of optional text is absent: [None], or the empty string. *)
Definition no_text (o : option string) : Prop := o = None \/ o = Some EmptyString.

(** The program is delivered online. *)
Definition is_online (course : Course.t) : Prop :=
  Py.lower (Course.modality course) = "online".

Definition city_matches (location : string) (course : Course.t) : Prop :=
  exists city, Course.location_city course = Some city
               /\ substring_ci location city.

Definition country_matches (location : string) (course : Course.t) : Prop :=
  exists country, Course.location_country course = Some country
                  /\ substring_ci location country.

(** Career goals against the outcomes of a program. *)
Definition some_title_matches (goal : string) (course : Course.t) : Prop :=
  exists o, In o (Course.career_outcomes course)
            /\ substring_ci goal (CareerOutcome.title o).

Definition some_outcome_description_matches (goal : string)
    (course : Course.t) : Prop :=
  exists o d, In o (Course.career_outcomes course)
              /\ CareerOutcome.description o = Some d
              /\ substring_ci goal d.

(** The five filter rules: a preference is specified, the program's value
    is known, and the two disagree. *)
Definition ModalityViolated (course : Course.t) (request : Request) : Prop :=
  exists m, RecommendationRequest.modality request = Some m
            /\ m <> EmptyString /\ Course.modality course <> EmptyString
            /\ Py.lower m <> Py.lower (Course.modality course).

Definition LanguageViolated (course : Course.t) (request : Request) : Prop :=
  exists l, RecommendationRequest.language_of_instruction request = Some l
            /\ l <> EmptyString
            /\ Py.lower (Course.language_of_instruction course)
               <> Py.lower l.

Definition TuitionViolated (course : Course.t) (request : Request) : Prop :=
  exists budget fee,
    RecommendationRequest.max_tuition request = Some budget
    /\ Course.tuition_fee course = Some fee
    /\ ~ budget == 0 /\ ~ fee == 0 /\ budget < fee.

Definition DurationViolated (course : Course.t) (request : Request) : Prop :=
  exists longest months,
    RecommendationRequest.max_duration_months request = Some longest
    /\ Course.duration_months course = Some months
    /\ longest <> 0%Z /\ months <> 0%Z /\ (longest < months)%Z.

Definition LevelViolated (course : Course.t) (request : Request) : Prop :=
  exists l cl,
    RecommendationRequest.course_level request = Some l
    /\ Course.course_level course = Some cl
    /\ l <> EmptyString /\ cl <> EmptyString /\ Py.lower l <> Py.lower cl.

(** Each weight lies in the unit interval. *)
Definition valid_weights (request : Request) : Prop :=
  0 <= RecommendationRequest.skill_weight request <= 1
  /\ 0 <= RecommendationRequest.interest_weight request <= 1
  /\ 0 <= RecommendationRequest.location_weight request <= 1
  /\ 0 <= RecommendationRequest.career_weight request <= 1.


(** The body leaves every filter field out. *)
Definition no_filter_given (b : RecommendationRequest.body) : Prop :=
  RecommendationRequest.b_location b = Omitted
  /\ RecommendationRequest.b_modality b = Omitted
  /\ RecommendationRequest.b_language_of_instruction b = Omitted
  /\ RecommendationRequest.b_max_tuition b = Omitted
  /\ RecommendationRequest.b_max_duration_months b = Omitted
  /\ RecommendationRequest.b_course_level b = Omitted.



(** The match built from a score record, before validation. *)
Definition match_of (score_data : ScoreData.t) : CourseMatch.t :=
  CourseMatch.mk (ScoreData.course score_data)
    (ScoreData.total_score score_data)
    (ScoreData.content_score score_data)
    (ScoreData.content_score score_data)
    (ScoreData.location_score score_data)
    (ScoreData.career_score score_data)
    (if truthy (Course.entry_requirements (ScoreData.course score_data))
     then ["Please check entry requirements"] else []).

(** ** Sample data *)

Module Sample.

(** A stand-in for scikit-learn: the fitted model keeps the documents, and
    the similarity is 1 when the query occurs in the document of the row,
    0 otherwise; a row outside the matrix raises. *)
#[export] Instance toy : Tfidf := {|
  Fitted := list string;
  fit_transform := fun docs => Some docs;
  similarity := fun docs q i =>
    match nth_error docs i with
    | Some doc => Some (if Py.contains q doc then 1 else 0)
    | None => None
    end |}.

Definition outcome (title : string) (description : option string)
    : CareerOutcome.t :=
  CareerOutcome.mk title description (Some "USD") None.

Definition course (id : Z) (name city country language modality : string)
    (months : Z) (fee : Q) (outcomes : list CareerOutcome.t) : Course.t :=
  Course.mk id name (Some "A sample programme") "Sample University"
    (Some city) (Some country) language modality (Some months) (Some fee)
    (Some "EUR") None None (Some "graduate") None
    [Skill.mk "Python" (Some "technical")] outcomes.

Definition berlin : Course.t :=
  course 1 "Computer Science" "Berlin" "Germany" "English" "in-person"
    24 20000 [outcome "Software Engineer" None].

Definition munich : Course.t :=
  course 2 "Informatik" "Munich" "Germany" "German" "in-person"
    24 1500 [outcome "Data Analyst" (Some "Works with a software engineer");
             outcome "Software Engineer" None].

Definition remote : Course.t :=
  course 3 "Data Science" "London" "United Kingdom" "English" "online"
    12 9000 [outcome "Data Scientist" None].

Definition catalog : list Course.t := [berlin; munich; remote].

(** A request with the schema's defaults, explicit [null] language. *)
Definition request (location modality career_goals : option string)
    (max_tuition : option Q) (location_weight career_weight : Q)
    : Request :=
  RecommendationRequest.mk (Some []) (Some []) location modality None
    career_goals max_tuition None None 0.4 0.3 location_weight career_weight.

(** The engine over [catalog], after [initialize]. *)
Definition ready : CourseRecommendationEngine (H := toy) :=
  mkEngine catalog (Some (map full_doc catalog : @Fitted toy)) catalog.

(** The request the schema builds from the body [{}]. *)
Definition default_request : Request :=
  RecommendationRequest.mk (Some []) (Some []) None None (Some "English")
    None None None None 0.4 0.3 0.15 0.15.

(** The request the schema builds from [heavy_body] below. *)
Definition heavy_request : Request :=
  RecommendationRequest.mk (Some []) (Some []) None None (Some "English")
    None None None None 0.4 0.3 1.0 1.0.

(** The body [{"location_weight": 1.0, "career_weight": 1.0}]. *)
Definition heavy_body : RecommendationRequest.body :=
  RecommendationRequest.mk_body Omitted Omitted Omitted Omitted Omitted
    Omitted Omitted Omitted Omitted Omitted Omitted (Given 1.0) (Given 1.0).

End Sample.

(** ** The rest of the engine *)

(** The iteration order of a Python [set] is not specified:
    [list(set(l))] is some list without duplicates that has the elements
    of [l]. *)
Class SetOrder := {
  list_of_set : list string -> list string;
  list_of_set_NoDup : forall l, NoDup (list_of_set l);
  list_of_set_In : forall l x, In x (list_of_set l) <-> In x l }.

(** [len(l)] printed by an f-string. *)
Definition str_of_len {A} (l : list A) : string :=
  NilZero.string_of_uint (Nat.to_uint (List.length l)).

Module PyTitle.

Definition is_cased (c : ascii) : bool :=
  let n := nat_of_ascii c in
  (((65 <=? n) && (n <=? 90)) || ((97 <=? n) && (n <=? 122)))%nat.

Definition upper_ascii (c : ascii) : ascii :=
  let n := nat_of_ascii c in
  if ((97 <=? n) && (n <=? 122))%nat then ascii_of_nat (n - 32) else c.

(** [str.title] (ASCII letters): a letter that follows a letter is put in
    lower case, any other letter in upper case. *)
Fixpoint title_from (previous_is_cased : bool) (s : string) : string :=
  match s with
  | EmptyString => EmptyString
  | String c t =>
      if is_cased c
      then String (if previous_is_cased then Py.lower_ascii c
                   else upper_ascii c)
                  (title_from true t)
      else String c (title_from false t)
  end.

(** [s.title()] *)
Definition title (s : string) : string := title_from false s.

End PyTitle.

Section Explanations.
Context `{SetOrder}.

(** The test of the inner loop of [_find_skill_matches]. *)
Definition skills_overlap (user_skill course_skill : string) : bool :=
  Py.contains user_skill course_skill || Py.contains course_skill user_skill.

Definition _find_skill_matches (course : Course.t)
    (user_skills : list string) : list string :=
  let user_skills_lower := map Py.lower user_skills in
  let course_skills_lower :=
    map (fun skill => Py.lower (Skill.name skill)) (Course.skills course) in
  let matches :=
    flat_map
      (fun user_skill =>
         (* the inner loop stops at the first course skill that fits *)
         match find (skills_overlap user_skill) course_skills_lower with
         | Some course_skill => [PyTitle.title course_skill]
         | None => []
         end)
      user_skills_lower in
  list_of_set matches.

(** [score_data['skill_matches']], as [_calculate_course_score] fills it:
    [self._find_skill_matches(course, request.skills or [])]. *)
Definition skill_matches_of (course : Course.t) (request : Request)
    : list string :=
  _find_skill_matches course
    (match RecommendationRequest.skills request with
     | Some skills => if truthy skills then skills else []
     | None => []
     end).

(** The list [explanations] of [_generate_match_explanation], before the
    generic statement is substituted for an empty list. *)
Definition explanation_notes (skill_matches : list string)
    (score_data : ScoreData.t) : list string :=
  ((if truthy skill_matches
    then [("Matches " ++ str_of_len skill_matches ++ " of your skills: "
           ++ Py.join ", " (firstn 3 skill_matches))%string]
    else [])
   ++
   (if Py.gt (ScoreData.location_score score_data) 0.8
    then ["Good location match"] else [])
   ++
   (if Py.gt (ScoreData.career_score score_data) 0.8
    then ["Aligns with your career goals"] else [])
   ++
   (if Py.gt (ScoreData.content_score score_data) 0.7
    then ["Strong content relevance"] else []))%list.

(** [_generate_match_explanation]; the entry ['skill_matches'] of the
    dictionary is the first argument. *)
Definition _generate_match_explanation (skill_matches : list string)
    (score_data : ScoreData.t) : string :=
  let explanations := explanation_notes skill_matches score_data in
  let explanations :=
    if negb (truthy explanations)
    then ["General compatibility based on your preferences"]
    else explanations in
  (Py.join ". " explanations ++ ".")%string.

End Explanations.

(** What the response says about the search. *)
Definition average_of (m : SearchMetadata) : option Q :=
  match m with
  | MetaSearch _ _ _ average _ _ _ _ => Some average
  | MetaError _ => None
  end.

Definition analyzed_of (m : SearchMetadata) : option nat :=
  match m with
  | MetaSearch analyzed _ _ _ _ _ _ _ => Some analyzed
  | MetaError _ => None
  end.





(** An outcome mentions the goal, in its title or in its description. *)
Definition outcome_mentions (goal : string) (o : CareerOutcome.t) : Prop :=
  substring_ci goal (CareerOutcome.title o)
  \/ exists d, CareerOutcome.description o = Some d /\ substring_ci goal d.

(** The body states a field within the constraint of the schema. *)
Definition field_within {A} (constraint : A -> Prop) (f : field A) : Prop :=
  match f with Given a => constraint a | _ => True end.

Definition weight_within (f : field Q) : Prop :=
  match f with
  | Omitted => True
  | Null => False
  | Given w => 0 <= w <= 1
  end.

(** ** The endpoints: [app/api/v1/endpoints/recommendations.py] *)

(** [get_skill_suggestions] of [app/services/skill_extractor.py]. *)
Definition get_skill_suggestions : list string :=
  [ "Python"; "JavaScript"; "Java"; "C++"; "C#"; "Ruby"; "Go"; "Rust";
    "Swift"; "Kotlin";
    "HTML"; "CSS"; "React"; "Angular"; "Vue.js"; "Node.js"; "Express.js";
    "REST API";
    "SQL"; "MySQL"; "PostgreSQL"; "MongoDB"; "Redis"; "Elasticsearch";
    "AWS"; "Azure"; "Google Cloud"; "Docker"; "Kubernetes"; "Jenkins"; "Git";
    "Machine Learning"; "Data Analysis"; "Statistics"; "TensorFlow";
    "PyTorch"; "Pandas";
    "Leadership"; "Communication"; "Project Management"; "Teamwork";
    "Problem Solving"; "Critical Thinking"; "Creativity"; "Adaptability";
    "Time Management";
    "UI/UX Design"; "Graphic Design"; "Photoshop"; "Figma"; "User Research";
    "Business Analysis"; "Strategic Planning"; "Market Research"; "Sales";
    "Marketing" ].

Definition common_interests : list string :=
  [ "Technology"; "Business"; "Arts"; "Science"; "Health"; "Education";
    "Environment"; "Finance"; "Marketing"; "Design"; "Music"; "Sports";
    "Travel"; "Writing"; "Research"; "Innovation"; "Sustainability";
    "Social Impact"; "Gaming"; "Photography"; "Cooking"; "Fashion" ].

Definition common_locations : list string :=
  [ "United States"; "United Kingdom"; "Canada"; "Australia"; "Germany";
    "France"; "Netherlands"; "Sweden"; "Singapore"; "Japan"; "Online";
    "New York"; "London"; "Toronto"; "Sydney"; "Berlin"; "Amsterdam";
    "Stockholm"; "Tokyo"; "Remote"; "Hybrid" ].

(** The list the endpoint searches for a given [type]; none for a type it
    does not know. *)
Definition suggestion_source (type : string) : option (list string) :=
  if (type =? "skills")%string then Some get_skill_suggestions
  else if (type =? "interests")%string then Some common_interests
  else if (type =? "locations")%string then Some common_locations
  else None.

(** [get_search_suggestions(query, type, limit)]: the value of the key
    ["suggestions"] of the answer.  The parameters are [None] when the
    caller leaves them out. *)
Definition get_search_suggestions (query type : option string)
    (limit : option Z) : list string :=
  let query := match query with Some q => q | None => EmptyString end in
  let type := match type with Some t => t | None => "skills" end in
  let limit := match limit with Some n => n | None => 10%Z end in
  let query_lower := Py.lower query in
  match suggestion_source type with
  | Some all =>
      Py.slice_to
        (filter (fun entry => Py.contains query_lower (Py.lower entry)) all)
        limit
  | None => []
  end.

(** ** The skill extractor: [app/services/skill_extractor.py] *)

(** [min(0.9, 0.5 + len(skill) * 0.02)]; Python's [min] returns its first
    argument unless the second is smaller. *)
Definition direct_confidence (skill : string) : Q :=
  let raised := 0.5 + inject_Z (Z.of_nat (String.length skill)) * 0.02 in
  if Py.gt 0.9 raised then raised else 0.9.

(** [_extract_direct_matches]: [known_skills] lists the set
    [self.known_skills] in the order in which Python iterates over it, and
    the dictionary returned is the list of its items, in insertion order. *)
Definition _extract_direct_matches (known_skills : list string)
    (text : string) : list (string * Q) :=
  map (fun skill => (skill, direct_confidence skill))
      (filter (fun skill => Py.contains skill text) known_skills).

(** ** More sample data *)

Module Demo.

(** Duplicates are dropped and the first occurrences keep their order. *)
#[export] Instance first_seen : SetOrder := {|
  list_of_set := nodup string_dec;
  list_of_set_NoDup := NoDup_nodup string_dec;
  list_of_set_In := nodup_In string_dec |}.

(** A search for an engineering career in Germany. *)
Definition germany : Request :=
  Sample.request (Some "Germany") None (Some "engineer") None 0.15 0.15.

(** The answer of the engine to [germany] with [limit = 2]. *)
Definition answer : Response :=
  match fst (get_recommendations Sample.ready germany (Some 2%Z)) with
  | Ok response => response
  | Raise _ => no_courses_response
  end.

(** The same search for any number of results, and its answer. *)
Definition all_but_last : Response :=
  match fst (get_recommendations Sample.ready germany (Some (-1)%Z)) with
  | Ok response => response
  | Raise _ => no_courses_response
  end.


(** A request whose weights are all zero. *)
Definition weightless : Request :=
  RecommendationRequest.mk (Some ["python"]) (Some []) None None None None
    None None None 0 0 0 0.

(** A request for programs taught in French. *)
Definition french : Request :=
  RecommendationRequest.mk (Some ["python"]) (Some []) None None
    (Some "French") None None None None 0.4 0.3 0.15 0.15.


(** The score record of the program at position [i] of [Sample.catalog]. *)
Definition scored (request : Request) (i : nat) (course : Course.t)
    : ScoreData.t :=
  _calculate_course_score Sample.ready course request
    (_build_user_query request) i.


Definition online_only : Request :=
  Sample.request None (Some "online") None None 0.15 0.15.

End Demo.

(** * Properties *)

(** ** The primitives on small inputs *)

Example lower_Berlin : Py.lower "Berlin" = "berlin".
Proof. reflexivity. Qed.

Example contains_examples :
  Py.contains "erl" "berlin" = true
  /\ Py.contains "paris" "berlin" = false
  /\ Py.contains EmptyString EmptyString = true.
Proof. repeat split; reflexivity. Qed.

Example strip_example : Py.strip "  a b " = "a b".
Proof. reflexivity. Qed.

Example sort_desc_keeps_ties :
  Py.sort_desc snd [("a", 0.5); ("b", 0.9); ("c", 0.5); ("d", 0.9)]
  = [("b", 0.9); ("d", 0.9); ("a", 0.5); ("c", 0.5)].
Proof. reflexivity. Qed.

(** A negative bound counts from the end of the list. *)
Example slice_examples :
  Py.slice_to [1; 2; 3]%nat 2 = [1; 2]%nat
  /\ Py.slice_to [1; 2; 3]%nat 7 = [1; 2; 3]%nat
  /\ Py.slice_to [1; 2; 3]%nat (-1) = [1; 2]%nat.
Proof. repeat split; reflexivity. Qed.

Example full_doc_berlin :
  full_doc Sample.berlin
  = "python software engineer computer science A sample programme".
Proof. reflexivity. Qed.

Example tuition_example :
  _calculate_filter_score Sample.berlin
    (Sample.request None None None (Some 15000) 0.15 0.15) = 0.2.
Proof. reflexivity. Qed.

(** ** Strings *)

Lemma prefix_iff (p s : string) :
  String.prefix p s = true <-> exists post, s = (p ++ post)%string.
Proof.
  revert s. induction p as [|a p IH]; intros s.
  - split; [intros _; now exists s | now destruct s].
  - destruct s as [|b s]; simpl.
    + split; [discriminate | intros [post E]; discriminate].
    + destruct (ascii_dec a b) as [->|ne].
      * rewrite IH. split; intros [post E]; exists post.
        -- now rewrite E.
        -- now injection E.
      * split; [discriminate | intros [post E]].
        injection E as E1 _. now elim ne.
Qed.

Lemma contains_unfold (needle hay : string) :
  Py.contains needle hay =
  String.prefix needle hay ||
  match hay with
  | EmptyString => false
  | String _ t => Py.contains needle t
  end.
Proof. now destruct hay. Qed.

Lemma contains_iff (needle hay : string) :
  Py.contains needle hay = true <-> is_substring needle hay.
Proof.
  unfold is_substring.
  induction hay as [|c hay IH];
    rewrite contains_unfold, orb_true_iff, prefix_iff.
  - split.
    + intros [[post E]|F]; [|discriminate]. now exists EmptyString, post.
    + intros [[|a pre] [post E]]; [left; now exists post | discriminate].
  - rewrite IH. split.
    + intros [[post E]|[pre [post E]]].
      * now exists EmptyString, post.
      * exists (String c pre), post. simpl. now rewrite E.
    + intros [[|a pre] [post E]].
      * left. now exists post.
      * right. exists pre, post. now injection E.
Qed.

Lemma contains_false_iff (needle hay : string) :
  Py.contains needle hay = false <-> ~ is_substring needle hay.
Proof.
  rewrite <- contains_iff. destruct (Py.contains needle hay); intuition congruence.
Qed.

Lemma lower_empty (s : string) : Py.lower s = EmptyString <-> s = EmptyString.
Proof. destruct s; simpl; split; congruence. Qed.

Lemma truthy_str_iff (s : string) : truthy s = true <-> s <> EmptyString.
Proof.
  unfold truthy, Truthy_str. rewrite negb_true_iff. apply String.eqb_neq.
Qed.

Lemma truthy_str_false (s : string) : truthy s = false <-> s = EmptyString.
Proof.
  unfold truthy, Truthy_str. rewrite negb_false_iff. apply String.eqb_eq.
Qed.

Lemma no_text_falsy (o : option string) : no_text o <-> truthy o = false.
Proof.
  unfold no_text. destruct o as [s|].
  - change (truthy (Some s)) with (truthy s). rewrite truthy_str_false.
    split; [intros [F|E]; congruence | right; congruence].
  - split; auto.
Qed.

Lemma ne_iff (x y : string) : Py.ne x y = true <-> x <> y.
Proof. unfold Py.ne. rewrite negb_true_iff. apply String.eqb_neq. Qed.

Lemma ne_false (x y : string) : Py.ne x y = false <-> x = y.
Proof. unfold Py.ne. rewrite negb_false_iff. apply String.eqb_eq. Qed.

Lemma gt_iff (x y : Q) : Py.gt x y = true <-> y < x.
Proof.
  unfold Py.gt. rewrite negb_true_iff. split; intros E.
  - apply Qnot_le_lt. intros L. apply Qle_bool_iff in L. congruence.
  - destruct (Qle_bool x y) eqn:L; [|reflexivity].
    apply Qle_bool_iff in L. lra.
Qed.

Lemma gt_false (x y : Q) : Py.gt x y = false <-> x <= y.
Proof.
  unfold Py.gt. rewrite negb_false_iff. apply Qle_bool_iff.
Qed.

Lemma truthy_float_iff (x : Q) : truthy x = true <-> ~ x == 0.
Proof.
  unfold truthy, Truthy_float. rewrite negb_true_iff.
  rewrite <- Qeq_bool_iff. destruct (Qeq_bool x 0); intuition congruence.
Qed.

Lemma truthy_int_iff (n : Z) : truthy n = true <-> n <> 0%Z.
Proof.
  unfold truthy, Truthy_int. rewrite negb_true_iff. apply Z.eqb_neq.
Qed.

(** A non-empty needle never occurs in an absent or empty optional text. *)
Lemma truthy_and_contains (needle : string) (o : option string) :
  needle <> EmptyString ->
  truthy_and o (fun s => Py.contains (Py.lower needle) (Py.lower s)) = true
  <-> exists s, o = Some s /\ substring_ci needle s.
Proof.
  intros ne. unfold truthy_and, substring_ci. destruct o as [s|].
  - rewrite andb_true_iff, contains_iff, truthy_str_iff. split.
    + intros [_ S]. now exists s.
    + intros [s' [E S]]. injection E as <-. split; [|exact S].
      intros ->. destruct S as [pre [post E]].
      destruct pre; simpl in E; [|discriminate].
      destruct (Py.lower needle) eqn:L; [|discriminate].
      apply ne. now apply lower_empty.
  - split; [discriminate | intros [s [E _]]; discriminate].
Qed.

(** ** Reflection of the guards of the filter blocks *)

Lemma truthy_int_false (n : Z) : truthy n = false <-> n = 0%Z.
Proof.
  unfold truthy, Truthy_int. rewrite negb_false_iff. apply Z.eqb_eq.
Qed.

Lemma truthy_float_false (x : Q) : truthy x = false <-> x == 0.
Proof.
  unfold truthy, Truthy_float. rewrite negb_false_iff. apply Qeq_bool_iff.
Qed.

(** Turn the boolean tests recorded in the context into propositions. *)
Ltac reflect_guards :=
  repeat match goal with
  | E : @truthy string _ _ = true |- _ => apply truthy_str_iff in E
  | E : @truthy string _ _ = false |- _ => apply truthy_str_false in E
  | E : @truthy Q _ _ = true |- _ => apply truthy_float_iff in E
  | E : @truthy Q _ _ = false |- _ => apply truthy_float_false in E
  | E : @truthy Z _ _ = true |- _ => apply truthy_int_iff in E
  | E : @truthy Z _ _ = false |- _ => apply truthy_int_false in E
  | E : Py.ne _ _ = true |- _ => apply ne_iff in E
  | E : Py.ne _ _ = false |- _ => apply ne_false in E
  | E : Py.gt _ _ = true |- _ => apply gt_iff in E
  | E : Py.gt _ _ = false |- _ => apply gt_false in E
  | E : (_ >? _)%Z = true |- _ => apply Z.gtb_lt in E
  | E : (_ >? _)%Z = false |- _ => rewrite Z.gtb_ltb, Z.ltb_ge in E
  end.

Lemma modality_filter_spec (course : Course.t) (request : Request) :
  (ModalityViolated course request
   /\ modality_filter course request = Some 0.0)
  \/ (~ ModalityViolated course request
      /\ modality_filter course request = None).
Proof.
  unfold ModalityViolated, modality_filter.
  destruct (RecommendationRequest.modality request) as [m|].
  - destruct (truthy m) eqn:Tm, (truthy (Course.modality course)) eqn:Tc;
      simpl;
      try destruct (Py.ne (Py.lower m) (Py.lower (Course.modality course)))
        eqn:N;
      reflect_guards;
      try (left; split; [now exists m | reflexivity]);
      right; (split; [|reflexivity]);
      intros (m' & E & ? & ? & ?); injection E as <-; congruence.
  - right. split; [|reflexivity]. intros (m' & E & _). discriminate.
Qed.

Lemma language_filter_spec (course : Course.t) (request : Request) :
  (LanguageViolated course request
   /\ language_filter course request = Some 0.1)
  \/ (~ LanguageViolated course request
      /\ language_filter course request = None).
Proof.
  unfold LanguageViolated, language_filter.
  destruct (RecommendationRequest.language_of_instruction request) as [l|].
  - destruct (truthy l) eqn:Tl;
      try destruct (Py.ne (Py.lower (Course.language_of_instruction course))
                          (Py.lower l)) eqn:N;
      reflect_guards;
      try (left; split; [now exists l | reflexivity]);
      right; (split; [|reflexivity]);
      intros (l' & E & ? & ?); injection E as <-; congruence.
  - right. split; [|reflexivity]. intros (l' & E & _). discriminate.
Qed.

Lemma tuition_filter_spec (course : Course.t) (request : Request) :
  (TuitionViolated course request
   /\ tuition_filter course request = Some 0.2)
  \/ (~ TuitionViolated course request
      /\ tuition_filter course request = None).
Proof.
  unfold TuitionViolated, tuition_filter.
  destruct (RecommendationRequest.max_tuition request) as [budget|];
    [destruct (Course.tuition_fee course) as [fee|]|].
  - destruct (truthy budget) eqn:Tb, (truthy fee) eqn:Tf; simpl;
      try destruct (Py.gt fee budget) eqn:G;
      reflect_guards;
      try (left; split; [now exists budget, fee | reflexivity]);
      right; (split; [|reflexivity]);
      intros (b' & f' & E1 & E2 & ? & ? & ?);
      injection E1 as <-; injection E2 as <-; try contradiction; lra.
  - right. split; [|reflexivity]. intros (b' & f' & _ & E & _). discriminate.
  - right. split; [|reflexivity]. intros (b' & f' & E & _). discriminate.
Qed.

Lemma duration_filter_spec (course : Course.t) (request : Request) :
  (DurationViolated course request
   /\ duration_filter course request = Some 0.3)
  \/ (~ DurationViolated course request
      /\ duration_filter course request = None).
Proof.
  unfold DurationViolated, duration_filter.
  destruct (RecommendationRequest.max_duration_months request) as [longest|];
    [destruct (Course.duration_months course) as [months|]|].
  - destruct (truthy longest) eqn:Tl, (truthy months) eqn:Tm; simpl;
      try destruct (months >? longest)%Z eqn:G;
      reflect_guards;
      try (left; split; [now exists longest, months | reflexivity]);
      right; (split; [|reflexivity]);
      intros (l' & m' & E1 & E2 & ? & ? & ?);
      injection E1 as <-; injection E2 as <-; lia.
  - right. split; [|reflexivity]. intros (l' & m' & _ & E & _). discriminate.
  - right. split; [|reflexivity]. intros (l' & m' & E & _). discriminate.
Qed.

Lemma level_filter_spec (course : Course.t) (request : Request) :
  (LevelViolated course request
   /\ level_filter course request = Some 0.5)
  \/ (~ LevelViolated course request
      /\ level_filter course request = None).
Proof.
  unfold LevelViolated, level_filter.
  destruct (RecommendationRequest.course_level request) as [l|];
    [destruct (Course.course_level course) as [cl|]|].
  - destruct (truthy l) eqn:Tl, (truthy cl) eqn:Tc; simpl;
      try destruct (Py.ne (Py.lower l) (Py.lower cl)) eqn:N;
      reflect_guards;
      try (left; split; [now exists l, cl | reflexivity]);
      right; (split; [|reflexivity]);
      intros (l' & c' & E1 & E2 & ? & ? & ?);
      injection E1 as <-; injection E2 as <-; congruence.
  - right. split; [|reflexivity]. intros (l' & c' & _ & E & _). discriminate.
  - right. split; [|reflexivity]. intros (l' & c' & E & _). discriminate.
Qed.

(** ** The filter multiplier *)

(** C4: the filter multiplier is decided by the first violated rule in
    the order modality (0.0), language (0.1), tuition (0.2), duration (0.3),
    course level (0.5), and is 1.0 when no rule is violated; when the
    modality preference is specified and differs from the modality of the
    program, the multiplier and the total score are 0, whatever the other
    sub-scores and filter fields are. *)
Theorem C4_first_violated_rule_wins (course : Course.t) (request : Request) :
  (ModalityViolated course request ->
   _calculate_filter_score course request = 0.0)
  /\ (~ ModalityViolated course request ->
      LanguageViolated course request ->
      _calculate_filter_score course request = 0.1)
  /\ (~ ModalityViolated course request ->
      ~ LanguageViolated course request ->
      TuitionViolated course request ->
      _calculate_filter_score course request = 0.2)
  /\ (~ ModalityViolated course request ->
      ~ LanguageViolated course request ->
      ~ TuitionViolated course request ->
      DurationViolated course request ->
      _calculate_filter_score course request = 0.3)
  /\ (~ ModalityViolated course request ->
      ~ LanguageViolated course request ->
      ~ TuitionViolated course request ->
      ~ DurationViolated course request ->
      LevelViolated course request ->
      _calculate_filter_score course request = 0.5)
  /\ (~ ModalityViolated course request ->
      ~ LanguageViolated course request ->
      ~ TuitionViolated course request ->
      ~ DurationViolated course request ->
      ~ LevelViolated course request ->
      _calculate_filter_score course request = 1.0)
  /\ (ModalityViolated course request ->
      forall (T : Tfidf) (self : CourseRecommendationEngine)
             (user_query : string) (course_index : nat),
        ScoreData.total_score
          (_calculate_course_score self course request user_query
             course_index) == 0).
Proof.
  assert (M0 : ModalityViolated course request ->
               _calculate_filter_score course request = 0.0).
  { intros M. unfold _calculate_filter_score.
    destruct (modality_filter_spec course request) as [[_ ->]|[N _]];
      [reflexivity | contradiction]. }
  repeat split; try exact M0;
    try (intros M T self user_query course_index;
         unfold _calculate_course_score; simpl; rewrite (M0 M); ring);
    intros; unfold _calculate_filter_score;
    destruct (modality_filter_spec course request) as [[? ->]|[? ->]];
    destruct (language_filter_spec course request) as [[? ->]|[? ->]];
    destruct (tuition_filter_spec course request) as [[? ->]|[? ->]];
    destruct (duration_filter_spec course request) as [[? ->]|[? ->]];
    destruct (level_filter_spec course request) as [[? ->]|[? ->]];
    try contradiction; reflexivity.
Qed.


(** Without the tuition block the multiplier is never 0.2. *)
Lemma filter_score_without_tuition (course : Course.t) (request : Request) :
  tuition_filter course request = None ->
  ~ _calculate_filter_score course request == 0.2.
Proof.
  intros N. unfold _calculate_filter_score. rewrite N.
  destruct (modality_filter_spec course request) as [[? ->]|[? ->]];
    destruct (language_filter_spec course request) as [[? ->]|[? ->]];
    destruct (duration_filter_spec course request) as [[? ->]|[? ->]];
    destruct (level_filter_spec course request) as [[? ->]|[? ->]];
    simpl; intros E; vm_compute in E; discriminate.
Qed.

(** C10: a maximum tuition of 0.0, or a tuition fee of 0.0, skips the
    tuition rule: the multiplier is the one obtained with the field absent,
    and it is never the 0.2 penalty, however high the other amount is. *)
Theorem C10_zero_tuition_is_no_preference
    (course : Course.t) (request : Request) :
  (forall budget,
      RecommendationRequest.max_tuition request = Some budget ->
      budget == 0 ->
      tuition_filter course request = None
      /\ _calculate_filter_score course request
         = _calculate_filter_score course
             (RecommendationRequest.with_max_tuition None request)
      /\ ~ _calculate_filter_score course request == 0.2)
  /\ (forall fee,
      Course.tuition_fee course = Some fee ->
      fee == 0 ->
      tuition_filter course request = None
      /\ _calculate_filter_score course request
         = _calculate_filter_score (Course.with_tuition_fee None course)
             request
      /\ ~ _calculate_filter_score course request == 0.2).
Proof.
  split.
  - intros budget E Z.
    assert (N : tuition_filter course request = None).
    { unfold tuition_filter. rewrite E.
      destruct (Course.tuition_fee course) as [fee|]; [|reflexivity].
      apply truthy_float_false in Z. now rewrite Z. }
    split; [exact N|]. split; [|now apply filter_score_without_tuition].
    unfold _calculate_filter_score. rewrite N. reflexivity.
  - intros fee E Z.
    assert (N : tuition_filter course request = None).
    { unfold tuition_filter. rewrite E.
      destruct (RecommendationRequest.max_tuition request) as [budget|];
        [|reflexivity].
      apply truthy_float_false in Z. rewrite Z.
      now rewrite andb_false_r. }
    split; [exact N|]. split; [|now apply filter_score_without_tuition].
    unfold _calculate_filter_score. rewrite N.
    unfold tuition_filter at 1. simpl.
    destruct (RecommendationRequest.max_tuition request); reflexivity.
Qed.

(** ** The request schema *)

Lemma bind_Ok {A B} (r : Result A) (k : A -> Result B) (b : B) :
  bind r k = Ok b -> exists a, r = Ok a /\ k a = Ok b.
Proof. destruct r as [a|e]; simpl; [now exists a | discriminate]. Qed.

(** What a validated request records of each field of the body. *)
Lemma validate_fields (b : RecommendationRequest.body) (request : Request) :
  RecommendationRequest.validate b = Ok request ->
  optional None RecommendationRequest.any (RecommendationRequest.b_location b)
    = Ok (RecommendationRequest.location request)
  /\ optional None RecommendationRequest.any
       (RecommendationRequest.b_modality b)
     = Ok (RecommendationRequest.modality request)
  /\ optional (Some "English") RecommendationRequest.any
       (RecommendationRequest.b_language_of_instruction b)
     = Ok (RecommendationRequest.language_of_instruction request)
  /\ optional None (Qle_bool 0) (RecommendationRequest.b_max_tuition b)
     = Ok (RecommendationRequest.max_tuition request)
  /\ optional None RecommendationRequest.any
       (RecommendationRequest.b_course_level b)
     = Ok (RecommendationRequest.course_level request)
  /\ optional None (fun n => (0 <? n)%Z)
       (RecommendationRequest.b_max_duration_months b)
     = Ok (RecommendationRequest.max_duration_months request)
  /\ weight 0.4 (RecommendationRequest.b_skill_weight b)
     = Ok (RecommendationRequest.skill_weight request)
  /\ weight 0.3 (RecommendationRequest.b_interest_weight b)
     = Ok (RecommendationRequest.interest_weight request)
  /\ weight 0.15 (RecommendationRequest.b_location_weight b)
     = Ok (RecommendationRequest.location_weight request)
  /\ weight 0.15 (RecommendationRequest.b_career_weight b)
     = Ok (RecommendationRequest.career_weight request).
Proof.
  unfold RecommendationRequest.validate. intros V.
  repeat match type of V with
  | bind _ _ = Ok _ =>
      let a := fresh "a" in let E := fresh "E" in
      apply bind_Ok in V; destruct V as (a & E & V)
  end.
  injection V as <-. simpl. repeat split; assumption.
Qed.

Lemma weight_in_unit (default w : Q) (f : field Q) :
  in_unit default = true -> weight default f = Ok w -> 0 <= w <= 1.
Proof.
  assert (U : forall x, in_unit x = true -> 0 <= x <= 1).
  { intros x I. unfold in_unit in I. apply andb_true_iff in I.
    destruct I as [L R]. apply Qle_bool_iff in L, R.
    split; lra. }
  intros D. destruct f as [| |x]; simpl; intros E.
  - injection E as <-. now apply U.
  - discriminate.
  - destruct (in_unit x) eqn:I; simpl in E; [|discriminate].
    injection E as <-. now apply U.
Qed.

(** The invariant of the query: a request the schema accepts has every
    weight in the unit interval. *)
Lemma validate_valid_weights (b : RecommendationRequest.body)
    (request : Request) :
  RecommendationRequest.validate b = Ok request -> valid_weights request.
Proof.
  intros V. apply validate_fields in V.
  destruct V as (_ & _ & _ & _ & _ & _ & W1 & W2 & W3 & W4).
  unfold valid_weights; repeat split;
    eapply weight_in_unit; try eassumption; reflexivity.
Qed.

(** A body without preferred language yields the default, "English". *)
Lemma language_defaults_to_English (b : RecommendationRequest.body)
    (request : Request) :
  RecommendationRequest.validate b = Ok request ->
  RecommendationRequest.b_language_of_instruction b = Omitted ->
  RecommendationRequest.language_of_instruction request = Some "English".
Proof.
  intros V O. apply validate_fields in V.
  destruct V as (_ & _ & L & _). rewrite O in L. simpl in L. congruence.
Qed.

(** C3, as the code has it: a filter field that the request holds as
    absent makes its rule fall through, and with all of them absent the
    multiplier is 1.0 for every program.  Leaving a field out of the body
    makes it absent for location, modality, maximum tuition, maximum
    duration and course level; the preferred language left out of the body
    is "English", so that with every filter field left out the multiplier is
    1.0 for the programs taught in English and 0.1 for the others. *)
Theorem C3_absent_filters (course : Course.t) (request : Request) :
  (RecommendationRequest.location request = None ->
   _calculate_location_score course request = 1.0)
  /\ (RecommendationRequest.modality request = None ->
      modality_filter course request = None)
  /\ (RecommendationRequest.language_of_instruction request = None ->
      language_filter course request = None)
  /\ (RecommendationRequest.max_tuition request = None ->
      tuition_filter course request = None)
  /\ (RecommendationRequest.max_duration_months request = None ->
      duration_filter course request = None)
  /\ (RecommendationRequest.course_level request = None ->
      level_filter course request = None)
  /\ (RecommendationRequest.modality request = None ->
      RecommendationRequest.language_of_instruction request = None ->
      RecommendationRequest.max_tuition request = None ->
      RecommendationRequest.max_duration_months request = None ->
      RecommendationRequest.course_level request = None ->
      _calculate_filter_score course request = 1.0)
  /\ (forall b,
        RecommendationRequest.validate b = Ok request ->
        no_filter_given b ->
        RecommendationRequest.location request = None
        /\ RecommendationRequest.modality request = None
        /\ RecommendationRequest.language_of_instruction request
           = Some "English"
        /\ RecommendationRequest.max_tuition request = None
        /\ RecommendationRequest.max_duration_months request = None
        /\ RecommendationRequest.course_level request = None
        /\ _calculate_location_score course request = 1.0
        /\ _calculate_filter_score course request
           = if (Py.lower (Course.language_of_instruction course)
                 =? "english")%string
             then 1.0 else 0.1).
Proof.
  repeat match goal with |- _ /\ _ => split end.
  - intros E. unfold _calculate_location_score. now rewrite E.
  - intros E. unfold modality_filter. now rewrite E.
  - intros E. unfold language_filter. now rewrite E.
  - intros E. unfold tuition_filter. now rewrite E.
  - intros E. unfold duration_filter. now rewrite E.
  - intros E. unfold level_filter. now rewrite E.
  - intros E1 E2 E3 E4 E5.
    unfold _calculate_filter_score, modality_filter, language_filter,
      tuition_filter, duration_filter, level_filter.
    now rewrite E1, E2, E3, E4, E5.
  - intros b V (O1 & O2 & O3 & O4 & O5 & O6).
    apply validate_fields in V.
    destruct V as (L1 & L2 & L3 & L4 & L5 & L6 & _).
    rewrite O1 in L1. rewrite O2 in L2. rewrite O3 in L3.
    rewrite O4 in L4. rewrite O5 in L6. rewrite O6 in L5.
    simpl in L1, L2, L3, L4, L5, L6.
    injection L1 as L1. injection L2 as L2. injection L3 as L3.
    injection L4 as L4. injection L5 as L5. injection L6 as L6.
    repeat match goal with |- _ /\ _ => split end; try congruence.
    + unfold _calculate_location_score. now rewrite <- L1.
    + unfold _calculate_filter_score, modality_filter, language_filter,
        tuition_filter, duration_filter, level_filter.
      rewrite <- L2, <- L3, <- L4, <- L5, <- L6.
      change (Py.lower "English") with "english".
      change (truthy "English") with true. unfold Py.ne.
      now destruct (Py.lower (Course.language_of_instruction course)
                    =? "english")%string.
Qed.

Lemma C3_witness :
  _calculate_filter_score Sample.munich
    (Sample.request None None None None 0.15 0.15) = 1.0
  /\ _calculate_filter_score Sample.munich Sample.default_request = 0.1.
Proof.
  destruct (C3_absent_filters Sample.munich
              (Sample.request None None None None 0.15 0.15))
    as (_ & _ & _ & _ & _ & _ & A & _).
  destruct (C3_absent_filters Sample.munich Sample.default_request)
    as (_ & _ & _ & _ & _ & _ & _ & D).
  split.
  - apply A; reflexivity.
  - apply (D RecommendationRequest.empty_body); [reflexivity|].
    repeat split.
Defined.

(** C3 as the specification words it fails: the body [{}] states no
    filter at all, and a program taught in German gets multiplier 0.1. *)
Lemma C3_counterexample :
  ~ (forall (b : RecommendationRequest.body) (request : Request)
            (course : Course.t),
       RecommendationRequest.validate b = Ok request ->
       no_filter_given b ->
       _calculate_filter_score course request == 1).
Proof.
  intros C.
  assert (N : no_filter_given RecommendationRequest.empty_body)
    by (repeat split).
  specialize (C RecommendationRequest.empty_body Sample.default_request
                Sample.munich eq_refl N).
  vm_compute in C. discriminate C.
Qed.

Lemma C4_witness :
  let request := Sample.request None (Some "online") None None 0.15 0.15 in
  ModalityViolated Sample.berlin request
  /\ _calculate_filter_score Sample.berlin request = 0.0
  /\ ScoreData.total_score
       (_calculate_course_score (new_engine (H:=Sample.toy) Sample.catalog)
          Sample.berlin
          request "python" 0) == 0.
Proof.
  intros request.
  assert (V : ModalityViolated Sample.berlin request).
  { exists "online". repeat split; discriminate. }
  destruct (C4_first_violated_rule_wins Sample.berlin request)
    as (M & _ & _ & _ & _ & _ & Z).
  split; [exact V|]. split; [exact (M V)|]. exact (Z V _ _ _ _).
Defined.

Lemma C10_witness :
  let request := Sample.request None None None (Some 0) 0.15 0.15 in
  tuition_filter Sample.berlin request = None
  /\ ~ _calculate_filter_score Sample.berlin request == 0.2.
Proof.
  intros request.
  destruct (C10_zero_tuition_is_no_preference Sample.berlin request)
    as (B & _).
  destruct (B 0 eq_refl (Qeq_refl 0)) as (N & _ & P).
  split; assumption.
Defined.

(** ** The location score *)

Lemma online_test (course : Course.t) :
  truthy (Course.modality course)
  && (Py.lower (Course.modality course) =? "online")%string = true
  <-> is_online course.
Proof.
  unfold is_online. rewrite andb_true_iff, String.eqb_eq, truthy_str_iff.
  split; [tauto | intros E; split; [|exact E]].
  intros Z. rewrite Z in E. discriminate E.
Qed.

(** C5: the location score is 1.0 without location preference; otherwise
    1.0 for an online program; otherwise 1.0 when the preferred location
    occurs, case-insensitively, in the city of the program; otherwise 0.7
    when it occurs in its country; otherwise 0.1.  For the program in Berlin,
    Germany, taught in person: "Berlin" gives 1.0, "Germany" 0.7 and
    "Paris" 0.1. *)
Theorem C5_location_score (course : Course.t) (request : Request) :
  (no_text (RecommendationRequest.location request) ->
   _calculate_location_score course request = 1.0)
  /\ (forall location,
        RecommendationRequest.location request = Some location ->
        location <> EmptyString ->
        (is_online course ->
         _calculate_location_score course request = 1.0)
        /\ (~ is_online course -> city_matches location course ->
            _calculate_location_score course request = 1.0)
        /\ (~ is_online course -> ~ city_matches location course ->
            country_matches location course ->
            _calculate_location_score course request = 0.7)
        /\ (~ is_online course -> ~ city_matches location course ->
            ~ country_matches location course ->
            _calculate_location_score course request = 0.1))
  /\ (Course.location_city course = Some "Berlin" ->
      Course.location_country course = Some "Germany" ->
      Course.modality course = "in-person" ->
      (RecommendationRequest.location request = Some "Berlin" ->
       _calculate_location_score course request = 1.0)
      /\ (RecommendationRequest.location request = Some "Germany" ->
          _calculate_location_score course request = 0.7)
      /\ (RecommendationRequest.location request = Some "Paris" ->
          _calculate_location_score course request = 0.1)).
Proof.
  split; [|split].
  - intros [E|E]; unfold _calculate_location_score; now rewrite E.
  - intros location E ne. unfold _calculate_location_score. rewrite E.
    apply truthy_str_iff in ne. rewrite ne. simpl negb. cbv iota.
    pose proof (online_test course) as O.
    pose proof (truthy_and_contains location (Course.location_city course)
                  (proj1 (truthy_str_iff _) ne)) as Ci.
    pose proof (truthy_and_contains location
                  (Course.location_country course)
                  (proj1 (truthy_str_iff _) ne)) as Co.
    fold (city_matches location course) in Ci.
    fold (country_matches location course) in Co.
    destruct (truthy (Course.modality course)
              && (Py.lower (Course.modality course) =? "online")%string);
      destruct (truthy_and (Course.location_city course) _);
      destruct (truthy_and (Course.location_country course) _);
      repeat split; intros; try reflexivity; exfalso; intuition congruence.
  - intros Ci Co M. unfold _calculate_location_score.
    rewrite Ci, Co, M. repeat split; intros ->; reflexivity.
Qed.

Lemma C5_witness :
  _calculate_location_score Sample.berlin
    (Sample.request (Some "Germany") None None None 0.15 0.15) = 0.7.
Proof.
  destruct (C5_location_score Sample.berlin
              (Sample.request (Some "Germany") None None None 0.15 0.15))
    as (_ & _ & B).
  destruct (B eq_refl eq_refl eq_refl) as (_ & G & _).
  exact (G eq_refl).
Defined.

(** ** The career score *)

Lemma career_score_no_goal (course : Course.t) (request : Request) :
  no_text (RecommendationRequest.career_goals request) ->
  _calculate_career_score course request = 1.0.
Proof.
  intros [E|E]; unfold _calculate_career_score; now rewrite E.
Qed.

(** When no outcome description contains the goal, a matching title
    decides. *)
Lemma career_loop_titles_only (goal : string)
    (outcomes : list CareerOutcome.t) :
  goal <> EmptyString ->
  (forall o d, In o outcomes -> CareerOutcome.description o = Some d ->
               ~ substring_ci goal d) ->
  (exists o, In o outcomes /\ substring_ci goal (CareerOutcome.title o)) ->
  career_outcomes_loop (Py.lower goal) outcomes = Some 1.0.
Proof.
  intros ne. induction outcomes as [|o rest IH]; intros D [o' [I S]].
  - destruct I.
  - simpl.
    destruct (Py.contains (Py.lower goal) (Py.lower (CareerOutcome.title o)))
      eqn:Ct; [reflexivity|].
    destruct (truthy_and (CareerOutcome.description o) _) eqn:Cd.
    + apply truthy_and_contains in Cd; [|exact ne].
      destruct Cd as [d [E Sd]]. elim (D o d (or_introl eq_refl) E Sd).
    + apply IH.
      * intros o2 d I2. apply D. now right.
      * destruct I as [<-|I]; [|now exists o'].
        apply contains_false_iff in Ct. contradiction.
Qed.

(** C2, on the code: the outcomes are visited in order, and the title and
    the description of one outcome are both tested before the next outcome
    is looked at.  The second outcome of the program has the goal as its
    title, yet the score is 0.8, because the description of the first
    outcome contains the goal; with the two outcomes swapped it is 1.0. *)
Theorem C2_title_match_shadowed_by_description :
  let request :=
    Sample.request None None (Some "Software Engineer") None 0.15 0.15 in
  let swapped :=
    Sample.course 2 "Informatik" "Munich" "Germany" "German" "in-person"
      24 1500 (rev (Course.career_outcomes Sample.munich)) in
  some_title_matches "Software Engineer" Sample.munich
  /\ _calculate_career_score Sample.munich request = 0.8
  /\ _calculate_career_score swapped request = 1.0.
Proof.
  intros request swapped. split; [|split; reflexivity].
  exists (Sample.outcome "Software Engineer" None). split.
  - right. left. reflexivity.
  - apply contains_iff. reflexivity.
Qed.

(** ** Ranges of the scores *)

Lemma location_score_values (course : Course.t) (request : Request) :
  In (_calculate_location_score course request) [1.0; 0.7; 0.1].
Proof.
  unfold _calculate_location_score.
  destruct (RecommendationRequest.location request) as [l|]; [|simpl; tauto].
  destruct (negb (truthy l)); [simpl; tauto|].
  destruct (truthy (Course.modality course) && _); [simpl; tauto|].
  destruct (truthy_and (Course.location_city course) _); [simpl; tauto|].
  destruct (truthy_and (Course.location_country course) _); simpl; tauto.
Qed.

Lemma career_loop_values (goal : string) (outcomes : list CareerOutcome.t) :
  forall v, career_outcomes_loop goal outcomes = Some v -> In v [1.0; 0.8].
Proof.
  induction outcomes as [|o rest IH]; simpl; intros v E; [discriminate|].
  destruct (Py.contains goal (Py.lower (CareerOutcome.title o))).
  - injection E as <-. now left.
  - destruct (truthy_and (CareerOutcome.description o) _).
    + injection E as <-. right. now left.
    + now apply IH.
Qed.

Lemma career_score_values (course : Course.t) (request : Request) :
  In (_calculate_career_score course request) [1.0; 0.8; 0.6; 0.3].
Proof.
  unfold _calculate_career_score.
  destruct (RecommendationRequest.career_goals request) as [g|];
    [|simpl; tauto].
  destruct (negb (truthy g)); [simpl; tauto|].
  destruct (career_outcomes_loop (Py.lower g) (Course.career_outcomes course))
    as [v|] eqn:L.
  - apply career_loop_values in L. simpl in *. tauto.
  - destruct (truthy_and (Course.description course) _); simpl; tauto.
Qed.








(** ** The sort *)

Lemma In_firstn {A} (n : nat) (l : list A) (a : A) :
  In a (firstn n l) -> In a l.
Proof.
  revert n. induction l as [|y t IH]; intros [|n]; simpl; try tauto.
  intros [E|I]; [now left | right; now apply (IH n)].
Qed.

Section SortFacts.
Context {A : Type} (key : A -> Q).

Lemma insert_desc_perm (x : A) (l : list A) :
  Permutation (Py.insert_desc key x l) (x :: l).
Proof.
  induction l as [|y t IH]; simpl; [reflexivity|].
  destruct (Py.gt (key y) (key x)); [|reflexivity].
  rewrite IH. apply perm_swap.
Qed.

Lemma sort_desc_perm (l : list A) : Permutation (Py.sort_desc key l) l.
Proof.
  induction l as [|x t IH]; simpl; [reflexivity|].
  rewrite insert_desc_perm. now constructor.
Qed.







End SortFacts.

(** ** Content similarity *)


Lemma score_all_length `{Tfidf} (self : CourseRecommendationEngine)
    (request : Request) :
  List.length (score_all self request) = List.length (courses_cache self).
Proof.
  unfold score_all, Py.enumerate.
  rewrite length_map, length_combine, length_seq. apply Nat.min_id.
Qed.



(** ** The response *)

(** C8: on an empty catalog [get_recommendations] returns a response with
    no recommendation, [total_matches = 0] and a suggestion. *)
Theorem C8_empty_catalog (T : Tfidf) (self : CourseRecommendationEngine)
    (request : Request) (limit : option Z) :
  db self = [] ->
  courses_cache self = [] ->
  exists response,
    get_recommendations self request limit = (Ok response, self)
    /\ RecommendationResponse.recommendations response = []
    /\ RecommendationResponse.total_matches response = 0%nat
    /\ RecommendationResponse.suggestions response <> [].
Proof.
  intros D C. exists no_courses_response.
  destruct self as [d m c]. simpl in D, C. subst d c.
  repeat split. discriminate.
Qed.

Lemma in_unit_iff (x : Q) : in_unit x = true <-> 0 <= x <= 1.
Proof.
  unfold in_unit. rewrite andb_true_iff, !Qle_bool_iff.
  split; intros [L R]; split; lra.
Qed.

Lemma validate_match_inv (m m' : CourseMatch.t) :
  CourseMatch.validate m = Ok m' -> m' = m.
Proof.
  unfold CourseMatch.validate. intros V.
  repeat match type of V with
  | bind _ _ = Ok _ =>
      let a := fresh "a" in let E := fresh "E" in
      apply bind_Ok in V; destruct V as (a & E & V)
  end.
  congruence.
Qed.


(** A match score above 1 is refused by the response schema. *)
Lemma validate_match_above_one (m : CourseMatch.t) :
  1 < CourseMatch.match_score m ->
  CourseMatch.validate m = Raise ValidationError.
Proof.
  intros L. unfold CourseMatch.validate.
  destruct (Course.schema_ok (CourseMatch.course m)); [|reflexivity].
  assert (I : in_unit (CourseMatch.match_score m) = false).
  { destruct (in_unit (CourseMatch.match_score m)) eqn:I; [|reflexivity].
    apply in_unit_iff in I. lra. }
  simpl. now rewrite I.
Qed.

Lemma traverse_create_inv (l : list ScoreData.t) (ms : list CourseMatch.t) :
  traverse _create_course_match l = Ok ms -> ms = map match_of l.
Proof.
  revert ms. induction l as [|sd t IH]; cbn [traverse map]; intros ms V.
  - congruence.
  - apply bind_Ok in V. destruct V as (m & E & V).
    apply bind_Ok in V. destruct V as (ms' & E' & V).
    injection V as <-.
    change (_create_course_match sd)
      with (CourseMatch.validate (match_of sd)) in E.
    apply (validate_match_inv (match_of sd) m) in E.
    rewrite (IH ms' E'). f_equal. exact E.
Qed.



Lemma score_all_In `{Tfidf} (self : CourseRecommendationEngine)
    (request : Request) (sd : ScoreData.t) :
  In sd (score_all self request) ->
  exists i course,
    In course (courses_cache self)
    /\ sd = _calculate_course_score self course request
              (_build_user_query request) i.
Proof.
  unfold score_all. rewrite in_map_iff. intros [[i course] [E I]].
  exists i, course. split; [|now symmetry].
  unfold Py.enumerate in I. now apply in_combine_r in I.
Qed.

Lemma ranked_In `{Tfidf} (self : CourseRecommendationEngine)
    (request : Request) (sd : ScoreData.t) :
  In sd (ranked self request) ->
  In sd (score_all self request) /\ 0.1 < ScoreData.total_score sd.
Proof.
  unfold ranked. intros I.
  apply (Permutation_in _ (sort_desc_perm ScoreData.total_score _)) in I.
  apply filter_In in I. destruct I as [I A]. split; [exact I|].
  now apply gt_iff in A.
Qed.

Lemma slice_to_nonneg {A} (l : list A) (limit : Z) :
  (0 <= limit)%Z -> Py.slice_to l limit = firstn (Z.to_nat limit) l.
Proof.
  intros L. unfold Py.slice_to. now rewrite (proj2 (Z.leb_le _ _) L).
Qed.

Lemma truthy_list_iff {A} (l : list A) : truthy l = true <-> l <> [].
Proof. destruct l; cbv [truthy Truthy_list]; split; congruence. Qed.





(** C1, on the code: the request below passes the request schema, its
    weights lie in [0,1], and the only program of the catalog gets a total
    score of 2; the response schema refuses a match score above 1, and the
    exception leaves [get_recommendations], whatever the text index is. *)
Theorem C1_match_score_exceeds_schema_bound :
  let catalog := [Sample.berlin] in
  RecommendationRequest.validate Sample.heavy_body = Ok Sample.heavy_request
  /\ valid_weights Sample.heavy_request
  /\ (forall (T : Tfidf) (self : CourseRecommendationEngine) (i : nat),
        ScoreData.total_score
          (_calculate_course_score self Sample.berlin Sample.heavy_request
             (_build_user_query Sample.heavy_request) i) == 2)
  /\ fst (get_recommendations (new_engine (H := Sample.toy) catalog)
            Sample.heavy_request None) = Raise ValidationError
  /\ (forall T : Tfidf,
        exists e,
          fst (get_recommendations (new_engine catalog)
                 Sample.heavy_request None) = Raise e).
Proof.
  intros catalog. split; [reflexivity|].
  split; [unfold valid_weights; simpl; repeat split; lra|].
  split; [|split; [reflexivity|]].
  - intros T self i. unfold _calculate_course_score. simpl.
    unfold _calculate_content_similarity.
    destruct (course_skill_matrix self); reflexivity.
  - intros T. unfold get_recommendations, ensure_initialized, initialize,
      _build_skill_vectors. simpl courses_cache. cbv iota beta.
    change (negb (truthy catalog)) with false. cbv iota.
    change (truthy (map full_doc catalog)) with true. cbv iota.
    destruct (fit_transform (map full_doc catalog)) as [m|];
      [|eexists; reflexivity].
    eexists. vm_compute. reflexivity.
Qed.



Lemma C8_witness :
  exists response,
    get_recommendations (new_engine (H := Sample.toy) [])
      Sample.default_request None
    = (Ok response, new_engine (H := Sample.toy) [])
    /\ RecommendationResponse.recommendations response = []
    /\ RecommendationResponse.total_matches response = 0%nat
    /\ RecommendationResponse.suggestions response <> [].
Proof.
  exact (C8_empty_catalog Sample.toy (new_engine []) Sample.default_request
           None eq_refl eq_refl).
Defined.

(** * Further properties of the engine *)

(** ** What a response consists of *)

Lemma initialize_raises_ValueError `{Tfidf}
    (self : CourseRecommendationEngine) (e : Exception) :
  ensure_initialized self = Raise e -> e = ValueError.
Proof.
  unfold ensure_initialized, initialize, _build_skill_vectors.
  destruct (negb (truthy (courses_cache self))); [|discriminate].
  destruct (negb (truthy (courses_cache (_load_courses self))));
    [discriminate|].
  destruct (truthy (map full_doc (courses_cache (_load_courses self))));
    [|discriminate].
  destruct (fit_transform _); [discriminate | congruence].
Qed.

(** The two ways in which [get_recommendations] answers. *)
Lemma get_recommendations_Ok `{Tfidf}
    (self self' : CourseRecommendationEngine) (request : Request)
    (limit : option Z) (response : Response) :
  get_recommendations self request limit = (Ok response, self') ->
  ensure_initialized self = Ok self'
  /\ ((courses_cache self' = [] /\ response = no_courses_response)
      \/ (courses_cache self' <> []
          /\ traverse _create_course_match
               (Py.slice_to (ranked self' request) (limit_or_default limit))
             = Ok (RecommendationResponse.recommendations response)
          /\ response
             = RecommendationResponse.mk
                 (map match_of
                    (Py.slice_to (ranked self' request)
                       (limit_or_default limit)))
                 (List.length (ranked self' request))
                 (_generate_search_metadata self' request
                    (ranked self' request))
                 (_generate_suggestions request (ranked self' request)))).
Proof.
  unfold get_recommendations.
  destruct (ensure_initialized self) as [s|e] eqn:E; [|discriminate].
  destruct (negb (truthy (courses_cache s))) eqn:N.
  - intros G. injection G as <- <-. split; [reflexivity|]. left.
    split; [|reflexivity].
    destruct (courses_cache s); [reflexivity | discriminate].
  - intros G. injection G as G <-. split; [reflexivity|]. right.
    apply negb_false_iff, truthy_list_iff in N. split; [exact N|].
    apply bind_Ok in G. destruct G as (ms & Tr & G). injection G as <-.
    simpl. split; [exact Tr|].
    now rewrite (traverse_create_inv _ _ Tr).
Qed.

Lemma In_slice_to {A} (l : list A) (limit : Z) (a : A) :
  In a (Py.slice_to l limit) -> In a l.
Proof.
  unfold Py.slice_to. destruct (0 <=? limit)%Z; apply In_firstn.
Qed.

Lemma traverse_Ok_each {A B} (f : A -> Result B) (l : list A)
    (bs : list B) :
  traverse f l = Ok bs -> forall a, In a l -> exists b, f a = Ok b.
Proof.
  revert bs. induction l as [|x t IH]; simpl; intros bs V a I; [destruct I|].
  apply bind_Ok in V. destruct V as (b & E & V).
  apply bind_Ok in V. destruct V as (bs' & E' & _).
  destruct I as [<-|I]; [now exists b | now apply (IH bs')].
Qed.

Lemma validate_match_bounds (m m' : CourseMatch.t) :
  CourseMatch.validate m = Ok m' ->
  Course.schema_ok (CourseMatch.course m) = true
  /\ 0 <= CourseMatch.match_score m <= 1
  /\ 0 <= CourseMatch.skill_match_score m <= 1
  /\ 0 <= CourseMatch.interest_match_score m <= 1
  /\ 0 <= CourseMatch.location_match_score m <= 1
  /\ 0 <= CourseMatch.career_match_score m <= 1.
Proof.
  unfold CourseMatch.validate, check. intros V.
  destruct (Course.schema_ok (CourseMatch.course m)); [|discriminate].
  destruct (in_unit (CourseMatch.match_score m)) eqn:I1; [|discriminate].
  destruct (in_unit (CourseMatch.skill_match_score m)) eqn:I2;
    [|discriminate].
  destruct (in_unit (CourseMatch.interest_match_score m)) eqn:I3;
    [|discriminate].
  destruct (in_unit (CourseMatch.location_match_score m)) eqn:I4;
    [|discriminate].
  destruct (in_unit (CourseMatch.career_match_score m)) eqn:I5;
    [|discriminate].
  apply in_unit_iff in I1, I2, I3, I4, I5. tauto.
Qed.

(** Every returned match stems from a scored program of the cache. *)
Lemma returned_match_origin `{Tfidf}
    (self self' : CourseRecommendationEngine) (request : Request)
    (limit : option Z) (response : Response) (m : CourseMatch.t) :
  get_recommendations self request limit = (Ok response, self') ->
  In m (RecommendationResponse.recommendations response) ->
  exists i course,
    In course (courses_cache self')
    /\ m = match_of (_calculate_course_score self' course request
                       (_build_user_query request) i)
    /\ 0.1 < CourseMatch.match_score m
    /\ CourseMatch.validate m = Ok m.
Proof.
  intros G I. apply get_recommendations_Ok in G.
  destruct G as (_ & [[_ ->]|(_ & Tr & ->)]); [destruct I|].
  simpl in I, Tr. apply in_map_iff in I. destruct I as (sd & <- & I).
  destruct (traverse_Ok_each _ _ _ Tr sd I) as [m' V].
  change (_create_course_match sd) with (CourseMatch.validate (match_of sd))
    in V.
  rewrite (validate_match_inv _ _ V) in V.
  apply In_slice_to, ranked_In in I. destruct I as [I T].
  apply score_all_In in I. destruct I as (i & course & Ic & ->).
  exists i, course. repeat split; assumption.
Qed.

(** X1: with the four weights at 0 the engine answers without raising,
    returns no recommendation and counts no match, whatever the catalog and
    the filters are. *)
Theorem X1_zero_weights_empty_result (T : Tfidf)
    (self self' : CourseRecommendationEngine) (request : Request)
    (limit : option Z) :
  ensure_initialized self = Ok self' ->
  RecommendationRequest.skill_weight request == 0 ->
  RecommendationRequest.interest_weight request == 0 ->
  RecommendationRequest.location_weight request == 0 ->
  RecommendationRequest.career_weight request == 0 ->
  (forall sd, In sd (score_all self' request) ->
              ScoreData.total_score sd == 0)
  /\ exists response,
       get_recommendations self request limit = (Ok response, self')
       /\ RecommendationResponse.recommendations response = []
       /\ RecommendationResponse.total_matches response = 0%nat.
Proof.
  intros E W1 W2 W3 W4.
  assert (Z : forall sd, In sd (score_all self' request) ->
                         ScoreData.total_score sd == 0).
  { intros sd I. apply score_all_In in I. destruct I as (i & c & _ & ->).
    simpl. unfold weighted_sum. rewrite W1, W2, W3, W4. ring. }
  split; [exact Z|].
  assert (R : ranked self' request = []).
  { unfold ranked.
    replace (filter above_threshold (score_all self' request))
      with (@nil ScoreData.t); [reflexivity|].
    symmetry. induction (score_all self' request) as [|sd t IH];
      [reflexivity|].
    simpl. unfold above_threshold at 1.
    assert (G : Py.gt (ScoreData.total_score sd) 0.1 = false).
    { apply gt_false. rewrite (Z sd (or_introl eq_refl)). lra. }
    rewrite G. apply IH. intros sd' I. apply Z. now right. }
  unfold get_recommendations. rewrite E.
  destruct (negb (truthy (courses_cache self'))).
  - exists no_courses_response. repeat split.
  - rewrite R. unfold Py.slice_to.
    destruct (0 <=? limit_or_default limit)%Z; rewrite firstn_nil; simpl;
      eexists; repeat split.
Qed.

Lemma X1_witness :
  exists response,
    get_recommendations Sample.ready Demo.weightless None
    = (Ok response, Sample.ready)
    /\ RecommendationResponse.recommendations response = []
    /\ RecommendationResponse.total_matches response = 0%nat.
Proof.
  exact (proj2 (X1_zero_weights_empty_result Sample.toy Sample.ready
                  Sample.ready Demo.weightless None eq_refl
                  (Qeq_refl 0) (Qeq_refl 0) (Qeq_refl 0) (Qeq_refl 0))).
Defined.

(** X3: every match of a response has a score above the threshold 0.1 and
    at most 1, sub-scores in [0,1], equal skill and interest scores, and a
    program taken from the cache of the engine that passes the course
    schema. *)
Theorem X3_returned_matches_well_formed (T : Tfidf)
    (self self' : CourseRecommendationEngine) (request : Request)
    (limit : option Z) (response : Response) (m : CourseMatch.t) :
  get_recommendations self request limit = (Ok response, self') ->
  In m (RecommendationResponse.recommendations response) ->
  0.1 < CourseMatch.match_score m <= 1
  /\ In (CourseMatch.course m) (courses_cache self')
  /\ Course.schema_ok (CourseMatch.course m) = true
  /\ 0 <= CourseMatch.skill_match_score m <= 1
  /\ CourseMatch.interest_match_score m = CourseMatch.skill_match_score m
  /\ 0 <= CourseMatch.location_match_score m <= 1
  /\ 0 <= CourseMatch.career_match_score m <= 1.
Proof.
  intros G I.
  destruct (returned_match_origin self self' request limit response m G I)
    as (i & course & Ic & E & Th & V).
  apply validate_match_bounds in V.
  destruct V as (S & B1 & B2 & _ & B4 & B5).
  repeat match goal with |- _ /\ _ => split end; try tauto.
  - now rewrite E.
  - now rewrite E.
Qed.

Lemma X3_witness :
  let m := match_of (Demo.scored Demo.germany 0 Sample.berlin) in
  0.1 < CourseMatch.match_score m <= 1
  /\ In (CourseMatch.course m) Sample.catalog.
Proof.
  intros m.
  assert (G : get_recommendations Sample.ready Demo.germany (Some 2%Z)
              = (Ok Demo.answer, Sample.ready)) by reflexivity.
  assert (I : In m (RecommendationResponse.recommendations Demo.answer))
    by (vm_compute; left; reflexivity).
  destruct (X3_returned_matches_well_formed Sample.toy Sample.ready
              Sample.ready Demo.germany (Some 2%Z) Demo.answer m G I)
    as (B & C & _).
  split; [exact B | exact C].
Defined.

(** X4: a program whose modality differs from the modality the request
    asks for is never among the recommendations. *)
Theorem X4_modality_mismatch_never_returned (T : Tfidf)
    (self self' : CourseRecommendationEngine) (request : Request)
    (limit : option Z) (response : Response) (m : CourseMatch.t) :
  get_recommendations self request limit = (Ok response, self') ->
  In m (RecommendationResponse.recommendations response) ->
  ~ ModalityViolated (CourseMatch.course m) request.
Proof.
  intros G I V.
  destruct (returned_match_origin self self' request limit response m G I)
    as (i & course & _ & E & Th & _).
  rewrite E in Th, V. simpl in Th, V.
  destruct (modality_filter_spec course request) as [[_ F]|[N _]];
    [|contradiction].
  unfold _calculate_filter_score in Th. rewrite F in Th. simpl in Th.
  assert (Z : weighted_sum request
                (_calculate_content_similarity self'
                   (_build_user_query request) i)
                (_calculate_location_score course request)
                (_calculate_career_score course request) * 0.0 == 0)
    by ring.
  rewrite Z in Th. lra.
Qed.

Lemma X4_witness :
  ~ ModalityViolated
      (CourseMatch.course
         (match_of (Demo.scored Demo.online_only 2 Sample.remote)))
      Demo.online_only.
Proof.
  apply (X4_modality_mismatch_never_returned Sample.toy Sample.ready
           Sample.ready Demo.online_only None
           (RecommendationResponse.mk
              [match_of (Demo.scored Demo.online_only 2 Sample.remote)]
              1
              (_generate_search_metadata Sample.ready Demo.online_only
                 [Demo.scored Demo.online_only 2 Sample.remote])
              (_generate_suggestions Demo.online_only
                 [Demo.scored Demo.online_only 2 Sample.remote]))).
  - reflexivity.
  - left. reflexivity.
Defined.




(** ** Counts, metadata and suggestions *)

Lemma filter_length_bound {A} (p : A -> bool) (l : list A) :
  (List.length (filter p l) <= List.length l)%nat.
Proof.
  induction l as [|a t IH]; simpl; [lia|]. destruct (p a); simpl; lia.
Qed.

Lemma ranked_length `{Tfidf} (self : CourseRecommendationEngine)
    (request : Request) :
  (List.length (ranked self request) <= List.length (courses_cache self))%nat.
Proof.
  unfold ranked.
  rewrite (Permutation_length (sort_desc_perm ScoreData.total_score _)).
  rewrite <- (score_all_length self request). apply filter_length_bound.
Qed.

(** X5: [total_matches] never exceeds the number of programs of the cache;
    for a limit that is not negative the response holds
    [min(limit, total_matches)] recommendations; on a non-empty catalog the
    metadata report the size of the cache as the number of programs
    analysed. *)
Theorem X5_response_counts (T : Tfidf)
    (self self' : CourseRecommendationEngine) (request : Request)
    (limit : option Z) (response : Response) :
  get_recommendations self request limit = (Ok response, self') ->
  (RecommendationResponse.total_matches response
   <= List.length (courses_cache self'))%nat
  /\ ((0 <= limit_or_default limit)%Z ->
      List.length (RecommendationResponse.recommendations response)
      = Nat.min (Z.to_nat (limit_or_default limit))
          (RecommendationResponse.total_matches response))
  /\ (courses_cache self' <> [] ->
      analyzed_of (RecommendationResponse.search_metadata response)
      = Some (List.length (courses_cache self'))).
Proof.
  intros G. apply get_recommendations_Ok in G.
  destruct G as (_ & [[C ->]|(N & _ & ->)]); simpl.
  - rewrite C. split; [simpl; lia|]. split.
    + intros _. simpl. now rewrite Nat.min_0_r.
    + intros F. now elim F.
  - repeat split.
    + apply ranked_length.
    + intros L. rewrite length_map, slice_to_nonneg by exact L.
      apply length_firstn.
Qed.

Lemma X5_witness :
  List.length (RecommendationResponse.recommendations Demo.answer) = 2%nat
  /\ RecommendationResponse.total_matches Demo.answer = 3%nat.
Proof.
  assert (G : get_recommendations Sample.ready Demo.germany (Some 2%Z)
              = (Ok Demo.answer, Sample.ready)) by reflexivity.
  destruct (X5_response_counts Sample.toy Sample.ready Sample.ready
              Demo.germany (Some 2%Z) Demo.answer G) as (_ & L & _).
  split; [|reflexivity].
  rewrite L; [reflexivity | simpl; lia].
Defined.

(** X13: a negative limit [-k] does not empty the response: the
    recommendations are the ranked candidates without the last [k]. *)
Theorem X13_negative_limit_drops_last (T : Tfidf)
    (self self' : CourseRecommendationEngine) (request : Request)
    (k : positive) (response : Response) :
  courses_cache self' <> [] ->
  get_recommendations self request (Some (Z.neg k)) = (Ok response, self') ->
  RecommendationResponse.recommendations response
  = map match_of
      (firstn (List.length (ranked self' request) - Pos.to_nat k)
         (ranked self' request))
  /\ List.length (RecommendationResponse.recommendations response)
     = (RecommendationResponse.total_matches response - Pos.to_nat k)%nat.
Proof.
  intros N G. apply get_recommendations_Ok in G.
  destruct G as (_ & [[C _]|(_ & _ & ->)]); [contradiction|]. simpl.
  unfold Py.slice_to. simpl.
  split; [reflexivity|].
  rewrite length_map, length_firstn. lia.
Qed.

Lemma X13_witness :
  List.length (RecommendationResponse.recommendations Demo.all_but_last)
  = 2%nat.
Proof.
  assert (N : courses_cache Sample.ready <> []) by discriminate.
  assert (G : get_recommendations Sample.ready Demo.germany (Some (-1)%Z)
              = (Ok Demo.all_but_last, Sample.ready)) by reflexivity.
  destruct (X13_negative_limit_drops_last Sample.toy Sample.ready
              Sample.ready Demo.germany 1%positive Demo.all_but_last N G)
    as (_ & L).
  rewrite L. reflexivity.
Defined.





Lemma app_nil_iff {A} (l l' : list A) :
  (l ++ l')%list = [] <-> l = [] /\ l' = [].
Proof.
  split; [apply app_eq_nil | intros [-> ->]; reflexivity].
Qed.

Lemma singleton_if_nil {A} (b : bool) (x : A) :
  (if b then [x] else []) = [] <-> b = false.
Proof. destruct b; split; congruence. Qed.

(** X7: the response carries no suggestion exactly when at least five
    programs matched, the request names a skill, the tuition budget is
    absent, zero or at least 10000, and the average match score is at least
    0.3. *)
Theorem X7_no_suggestion_iff (T : Tfidf)
    (self self' : CourseRecommendationEngine) (request : Request)
    (limit : option Z) (response : Response) :
  courses_cache self' <> [] ->
  get_recommendations self request limit = (Ok response, self') ->
  exists average,
    average_of (RecommendationResponse.search_metadata response)
    = Some average
    /\ (RecommendationResponse.suggestions response = [] <->
        (5 <= RecommendationResponse.total_matches response)%nat
        /\ (exists skills,
              RecommendationRequest.skills request = Some skills
              /\ skills <> [])
        /\ (forall budget,
              RecommendationRequest.max_tuition request = Some budget ->
              budget == 0 \/ 10000 <= budget)
        /\ 0.3 <= average).
Proof.
  intros N G. apply get_recommendations_Ok in G.
  destruct G as (_ & [[C _]|(_ & _ & ->)]); [contradiction|]. simpl.
  eexists. split; [reflexivity|].
  unfold _generate_suggestions, average_match_score.
  set (cands := ranked self' request).
  rewrite !app_nil_iff, !singleton_if_nil.
  assert (Sk : negb (truthy (RecommendationRequest.skills request)) = false
               <-> exists skills,
                     RecommendationRequest.skills request = Some skills
                     /\ skills <> []).
  { rewrite negb_false_iff.
    destruct (RecommendationRequest.skills request) as [l|].
    - change (truthy (Some l)) with (truthy l). rewrite truthy_list_iff.
      split; [intros P; now exists l | intros (l' & E & P); congruence].
    - split; [discriminate | intros (l' & E & _); discriminate]. }
  assert (Tu : match RecommendationRequest.max_tuition request with
               | Some max_tuition =>
                   if truthy max_tuition && Py.gt 10000 max_tuition
                   then ["Consider increasing your budget or looking for scholarship opportunities"]
                   else []
               | None => []
               end = []
               <-> forall budget,
                     RecommendationRequest.max_tuition request = Some budget
                     -> budget == 0 \/ 10000 <= budget).
  { destruct (RecommendationRequest.max_tuition request) as [t|].
    - rewrite singleton_if_nil, andb_false_iff, truthy_float_false, gt_false.
      split; [intros P b E; injection E as <-; exact P | intros P; now apply P].
    - split; [intros _ b E; discriminate | reflexivity]. }
  rewrite Sk, Tu, Nat.ltb_ge.
  destruct cands as [|sd t] eqn:R.
  - simpl. split; [intros (L & _); lia | intros (L & _); lia].
  - change (truthy (sd :: t)) with true. cbv iota. rewrite andb_true_l.
    rewrite gt_false. tauto.
Qed.

Lemma X7_witness :
  exists average,
    average_of (RecommendationResponse.search_metadata Demo.answer)
    = Some average
    /\ (RecommendationResponse.suggestions Demo.answer = [] <->
        (5 <= RecommendationResponse.total_matches Demo.answer)%nat
        /\ (exists skills,
              RecommendationRequest.skills Demo.germany = Some skills
              /\ skills <> [])
        /\ (forall budget,
              RecommendationRequest.max_tuition Demo.germany = Some budget ->
              budget == 0 \/ 10000 <= budget)
        /\ 0.3 <= average).
Proof.
  assert (N : courses_cache Sample.ready <> []) by discriminate.
  assert (G : get_recommendations Sample.ready Demo.germany (Some 2%Z)
              = (Ok Demo.answer, Sample.ready)) by reflexivity.
  exact (X7_no_suggestion_iff Sample.toy Sample.ready Sample.ready
           Demo.germany (Some 2%Z) Demo.answer N G).
Defined.

(** ** The engine as an object *)

(** X8: an engine that holds a non-empty cache never goes back to the
    database: the answer is the one it would give over any other database
    contents, and the engine is left as it was. *)
Theorem X8_cache_is_a_snapshot (T : Tfidf)
    (self : CourseRecommendationEngine) (other_db : list Course.t)
    (request : Request) (limit : option Z) :
  courses_cache self <> [] ->
  snd (get_recommendations self request limit) = self
  /\ fst (get_recommendations
            (mkEngine other_db (course_skill_matrix self)
               (courses_cache self)) request limit)
     = fst (get_recommendations self request limit).
Proof.
  intros N. destruct self as [d m c]. simpl in N |- *.
  apply truthy_list_iff in N.
  unfold get_recommendations, ensure_initialized. cbn [courses_cache].
  rewrite !N. cbn [negb courses_cache]. rewrite !N. cbn [negb].
  split; reflexivity.
Qed.

Lemma X8_witness :
  fst (get_recommendations
         (mkEngine [] (course_skill_matrix Sample.ready)
            (courses_cache Sample.ready)) Demo.germany (Some 2%Z))
  = Ok Demo.answer.
Proof.
  assert (N : courses_cache Sample.ready <> []) by discriminate.
  destruct (X8_cache_is_a_snapshot Sample.toy Sample.ready []
              Demo.germany (Some 2%Z) N) as (_ & E).
  rewrite E. reflexivity.
Defined.

Lemma ensure_initialized_again `{Tfidf}
    (self self' : CourseRecommendationEngine) :
  ensure_initialized self = Ok self' -> ensure_initialized self' = Ok self'.
Proof.
  destruct self as [d m c].
  unfold ensure_initialized, initialize, _build_skill_vectors, _load_courses.
  simpl. destruct c as [|x c]; simpl.
  - destruct d as [|y d]; simpl.
    + intros E. injection E as <-. reflexivity.
    + destruct (fit_transform _); [|discriminate].
      intros E. injection E as <-. reflexivity.
  - intros E. injection E as <-. reflexivity.
Qed.

(** X9: unless the call raised ValueError, calling the engine again on
    the state it was left in gives the same result and the same state. *)
Theorem X9_repeated_call (T : Tfidf)
    (self self' : CourseRecommendationEngine) (request : Request)
    (limit : option Z) (result : Result Response) :
  get_recommendations self request limit = (result, self') ->
  result <> Raise ValueError ->
  get_recommendations self' request limit = (result, self').
Proof.
  unfold get_recommendations.
  destruct (ensure_initialized self) as [s|e] eqn:E.
  - intros G _.
    assert (S : s = self').
    { destruct (negb (truthy (courses_cache s))); now injection G. }
    subst s. now rewrite (ensure_initialized_again self self' E).
  - apply initialize_raises_ValueError in E. subst e.
    intros G N. injection G as <- _. now elim N.
Qed.

Lemma X9_witness :
  get_recommendations Sample.ready Demo.germany (Some 2%Z)
  = (Ok Demo.answer, Sample.ready).
Proof.
  apply (X9_repeated_call Sample.toy
           (new_engine (H := Sample.toy) Sample.catalog)).
  - reflexivity.
  - discriminate.
Defined.




(** ** Letter case in the request *)












(** ** The request schema, again *)

Lemma optional_any_Ok {A} (default : option A) (f : field A) :
  optional default RecommendationRequest.any f
  = Ok match f with
       | Omitted => default
       | Null => None
       | Given a => Some a
       end.
Proof. now destruct f. Qed.

Lemma optional_Ok_iff {A} (default : option A) (constraint : A -> bool)
    (f : field A) :
  (exists v, optional default constraint f = Ok v)
  <-> field_within (fun a => constraint a = true) f.
Proof.
  destruct f as [| |a]; simpl.
  - split; [trivial | now exists default].
  - split; [trivial | now exists None].
  - destruct (constraint a); simpl.
    + split; [trivial | now exists (Some a)].
    + split; [intros [v E]; discriminate | discriminate].
Qed.

Lemma weight_Ok_iff (default : Q) (f : field Q) :
  (exists w, weight default f = Ok w) <-> weight_within f.
Proof.
  destruct f as [| |w]; simpl.
  - split; [trivial | now exists default].
  - split; [intros [v E]; discriminate | contradiction].
  - rewrite <- in_unit_iff. destruct (in_unit w); simpl.
    + split; [trivial | now exists w].
    + split; [intros [v E]; discriminate | discriminate].
Qed.

(** X12: the request schema accepts a body exactly when the given maximum
    tuition is not negative, the given maximum duration is positive, and
    each weight is left out or given in [0,1] (never null); any other body
    is refused with a validation error, and an accepted request has its four
    weights in [0,1]. *)
Theorem X12_request_accepted_iff (b : RecommendationRequest.body) :
  ((exists request, RecommendationRequest.validate b = Ok request)
   <-> field_within (fun t => 0 <= t) (RecommendationRequest.b_max_tuition b)
       /\ field_within (fun n => (0 < n)%Z)
            (RecommendationRequest.b_max_duration_months b)
       /\ weight_within (RecommendationRequest.b_skill_weight b)
       /\ weight_within (RecommendationRequest.b_interest_weight b)
       /\ weight_within (RecommendationRequest.b_location_weight b)
       /\ weight_within (RecommendationRequest.b_career_weight b))
  /\ (forall e, RecommendationRequest.validate b = Raise e ->
                e = ValidationError)
  /\ (forall request, RecommendationRequest.validate b = Ok request ->
                      valid_weights request).
Proof.
  assert (Tu : (exists v, optional None (Qle_bool 0)
                            (RecommendationRequest.b_max_tuition b) = Ok v)
               <-> field_within (fun t => 0 <= t)
                     (RecommendationRequest.b_max_tuition b)).
  { rewrite optional_Ok_iff.
    destruct (RecommendationRequest.b_max_tuition b); simpl;
      try reflexivity. apply Qle_bool_iff. }
  assert (Du : (exists v, optional None (fun n => (0 <? n)%Z)
                            (RecommendationRequest.b_max_duration_months b)
                          = Ok v)
               <-> field_within (fun n => (0 < n)%Z)
                     (RecommendationRequest.b_max_duration_months b)).
  { rewrite optional_Ok_iff.
    destruct (RecommendationRequest.b_max_duration_months b); simpl;
      try reflexivity. apply Z.ltb_lt. }
  split; [|split].
  - rewrite <- Tu, <- Du, <- !weight_Ok_iff. split.
    + intros [request V]. apply validate_fields in V.
      destruct V as (_ & _ & _ & V4 & _ & V6 & W1 & W2 & W3 & W4).
      repeat split; eexists; eassumption.
    + intros ([t Et] & [d Ed] & [w1 E1] & [w2 E2] & [w3 E3] & [w4 E4]).
      unfold RecommendationRequest.validate.
      rewrite !optional_any_Ok, Et, Ed, E1, E2, E3, E4. simpl.
      eexists. reflexivity.
  - intros e. unfold RecommendationRequest.validate.
    rewrite !optional_any_Ok. simpl.
    repeat match goal with
           | |- context [bind ?x _] =>
               match x with
               | optional _ _ ?f =>
                   destruct f as [| |?a]; simpl;
                   [| |match goal with
                       | |- context [check ?c] =>
                           destruct c; simpl; [|congruence]
                       end]
               | weight _ ?f =>
                   destruct f as [| |?a]; simpl; [|congruence|];
                   [|match goal with
                     | |- context [check ?c] =>
                         destruct c; simpl; [|congruence]
                     end]
               end
           end; discriminate.
  - apply validate_valid_weights.
Qed.

Lemma X12_witness :
  exists request,
    RecommendationRequest.validate Sample.heavy_body = Ok request.
Proof.
  apply (proj1 (X12_request_accepted_iff Sample.heavy_body)).
  simpl. repeat split; lra.
Defined.

(** ** The career score, as the loop computes it *)

Lemma career_loop_skips (goal : string) (pre rest : list CareerOutcome.t) :
  goal <> EmptyString ->
  (forall p, In p pre -> ~ outcome_mentions goal p) ->
  career_outcomes_loop (Py.lower goal) (pre ++ rest)%list
  = career_outcomes_loop (Py.lower goal) rest.
Proof.
  intros ne. induction pre as [|p pre IH]; intros M; [reflexivity|].
  simpl.
  destruct (Py.contains (Py.lower goal) (Py.lower (CareerOutcome.title p)))
    eqn:Ct.
  - apply contains_iff in Ct. elim (M p (or_introl eq_refl)). now left.
  - destruct (truthy_and (CareerOutcome.description p) _) eqn:Cd.
    + apply truthy_and_contains in Cd; [|exact ne].
      elim (M p (or_introl eq_refl)). now right.
    + apply IH. intros q I. apply M. now right.
Qed.

(** X14: with a career goal, the first outcome of the program, in order,
    that mentions the goal decides: 1.0 when its title contains the goal,
    0.8 when only its description does, whatever the later outcomes are; when
    no outcome mentions the goal the score is 0.6 if the description of the
    program contains it and 0.3 otherwise. *)
Theorem X14_first_mentioning_outcome_decides
    (course : Course.t) (request : Request) (goal : string) :
  RecommendationRequest.career_goals request = Some goal ->
  goal <> EmptyString ->
  (forall pre o post,
      Course.career_outcomes course = (pre ++ o :: post)%list ->
      (forall p, In p pre -> ~ outcome_mentions goal p) ->
      (substring_ci goal (CareerOutcome.title o) ->
       _calculate_career_score course request = 1.0)
      /\ (~ substring_ci goal (CareerOutcome.title o) ->
          (exists d, CareerOutcome.description o = Some d
                     /\ substring_ci goal d) ->
          _calculate_career_score course request = 0.8))
  /\ ((forall p, In p (Course.career_outcomes course) ->
                 ~ outcome_mentions goal p) ->
      ((exists d, Course.description course = Some d
                  /\ substring_ci goal d) ->
       _calculate_career_score course request = 0.6)
      /\ (~ (exists d, Course.description course = Some d
                       /\ substring_ci goal d) ->
          _calculate_career_score course request = 0.3)).
Proof.
  intros E ne. unfold _calculate_career_score. rewrite E.
  rewrite (proj2 (truthy_str_iff goal) ne). simpl negb. cbv iota.
  split.
  - intros pre o post O M. rewrite O, (career_loop_skips goal pre _ ne M).
    simpl. split.
    + intros S. apply contains_iff in S. fold (Py.lower goal).
      unfold substring_ci in S. now rewrite S.
    + intros N D. apply contains_false_iff in N. rewrite N.
      apply (truthy_and_contains goal _ ne) in D. now rewrite D.
  - intros M.
    rewrite <- (app_nil_r (Course.career_outcomes course)).
    rewrite (career_loop_skips goal _ [] ne M). simpl.
    pose proof (truthy_and_contains goal (Course.description course) ne)
      as D.
    destruct (truthy_and (Course.description course) _); split; intros P;
      try reflexivity.
    + elim P. now apply D.
    + apply D in P. discriminate.
Qed.

Lemma X14_witness :
  _calculate_career_score Sample.munich
    (Sample.request None None (Some "software engineer") None 0.15 0.15)
  = 0.8.
Proof.
  destruct (X14_first_mentioning_outcome_decides Sample.munich
              (Sample.request None None (Some "software engineer") None
                 0.15 0.15)
              "software engineer" eq_refl ltac:(discriminate)) as (F & _).
  destruct (F [] (Sample.outcome "Data Analyst"
                    (Some "Works with a software engineer"))
              [Sample.outcome "Software Engineer" None] eq_refl
              ltac:(intros p []))
    as (_ & D).
  apply D.
  - apply contains_false_iff. reflexivity.
  - eexists. split; [reflexivity|]. apply contains_iff. reflexivity.
Defined.

(** * The search suggestions *)

Lemma slice_to_prefix {A} (l : list A) (limit : Z) :
  exists rest, l = (Py.slice_to l limit ++ rest)%list.
Proof.
  unfold Py.slice_to.
  destruct (0 <=? limit)%Z; eexists; symmetry; apply firstn_skipn.
Qed.

(** X15: every suggestion is an entry of the list of the requested type
    that contains the query, letter case aside; the suggestions are an
    initial part of those entries in the order of the list; with a limit
    that is not negative there are at most [limit] of them (10 by default);
    a type other than "skills", "interests" and "locations" gives none. *)
Theorem X15_search_suggestions_sound (query type : option string)
    (limit : option Z) :
  let q := match query with Some q => q | None => EmptyString end in
  let t := match type with Some t => t | None => "skills" end in
  let n := match limit with Some n => n | None => 10%Z end in
  (forall s, In s (get_search_suggestions query type limit) ->
             exists all, suggestion_source t = Some all
                         /\ In s all /\ substring_ci q s)
  /\ (forall all, suggestion_source t = Some all ->
        exists rest,
          filter (fun entry => Py.contains (Py.lower q) (Py.lower entry)) all
          = (get_search_suggestions query type limit ++ rest)%list)
  /\ ((0 <= n)%Z ->
      (List.length (get_search_suggestions query type limit)
       <= Z.to_nat n)%nat)
  /\ (t <> "skills" -> t <> "interests" -> t <> "locations" ->
      get_search_suggestions query type limit = []).
Proof.
  intros q t n. unfold get_search_suggestions. fold q t n.
  repeat match goal with |- _ /\ _ => split end.
  - intros s I. destruct (suggestion_source t) as [all|]; [|destruct I].
    exists all. split; [reflexivity|].
    apply In_slice_to, filter_In in I. destruct I as [I C].
    split; [exact I|]. now apply contains_iff in C.
  - intros all ->. apply slice_to_prefix.
  - intros L. destruct (suggestion_source t) as [all|]; [|simpl; lia].
    rewrite slice_to_nonneg by exact L. apply firstn_le_length.
  - intros N1 N2 N3. unfold suggestion_source.
    apply String.eqb_neq in N1, N2, N3. now rewrite N1, N2, N3.
Qed.

Lemma X15_witness :
  substring_ci "PY" "Python"
  /\ (List.length (get_search_suggestions (Some "a") (Some "locations")
                     (Some 3%Z)) <= 3)%nat.
Proof.
  destruct (X15_search_suggestions_sound (Some "PY") None None)
    as (S & _).
  destruct (X15_search_suggestions_sound (Some "a") (Some "locations")
              (Some 3%Z)) as (_ & _ & B & _).
  assert (I : In "Python" (get_search_suggestions (Some "PY") None None))
    by (vm_compute; left; reflexivity).
  split.
  - destruct (S "Python" I) as (all & _ & _ & C).
    exact C.
  - apply B. simpl. lia.
Defined.

Lemma filter_all {A} (p : A -> bool) (l : list A) :
  (forall a, In a l -> p a = true) -> filter p l = l.
Proof.
  induction l as [|a t IH]; intros P; [reflexivity|]. simpl.
  rewrite (P a (or_introl eq_refl)). f_equal. apply IH.
  intros b I. apply P. now right.
Qed.

(** X16: with a limit at least as large as the list of the requested type,
    every entry that contains the query, letter case aside, is suggested;
    the empty query selects every entry, so that it returns the first
    [limit] entries of the list. *)
Theorem X16_search_suggestions_complete (query type : option string)
    (limit : option Z) (all : list string) :
  let q := match query with Some q => q | None => EmptyString end in
  let t := match type with Some t => t | None => "skills" end in
  let n := match limit with Some n => n | None => 10%Z end in
  suggestion_source t = Some all ->
  ((Z.of_nat (List.length all) <= n)%Z ->
   forall s, In s all -> substring_ci q s ->
             In s (get_search_suggestions query type limit))
  /\ (q = EmptyString ->
      get_search_suggestions query type limit = Py.slice_to all n).
Proof.
  intros q t n E. unfold get_search_suggestions. fold q t n. rewrite E.
  split.
  - intros L s I C. rewrite slice_to_nonneg by lia.
    rewrite firstn_all2.
    + apply filter_In. split; [exact I | now apply contains_iff].
    + etransitivity; [apply filter_length_bound | lia].
  - intros ->. f_equal. apply filter_all. intros a _.
    apply contains_iff. exists EmptyString, (Py.lower a). reflexivity.
Qed.

Lemma X16_witness :
  In "Berlin" (get_search_suggestions (Some "BER") (Some "locations")
                 (Some 100%Z))
  /\ get_search_suggestions None (Some "interests") (Some 2%Z)
     = ["Technology"; "Business"].
Proof.
  destruct (X16_search_suggestions_complete (Some "BER") (Some "locations")
              (Some 100%Z) common_locations eq_refl) as (C & _).
  destruct (X16_search_suggestions_complete None (Some "interests")
              (Some 2%Z) common_interests eq_refl) as (_ & Q).
  split.
  - apply C.
    + simpl. lia.
    + unfold common_locations. simpl. tauto.
    + apply contains_iff. reflexivity.
  - rewrite Q; reflexivity.
Defined.

(** * Skill matches and explanations *)

Lemma skills_overlap_iff (u n : string) :
  skills_overlap (Py.lower u) (Py.lower n) = true
  <-> substring_ci u n \/ substring_ci n u.
Proof.
  unfold skills_overlap, substring_ci.
  now rewrite orb_true_iff, !contains_iff.
Qed.

Lemma list_of_set_nil `{SetOrder} (l : list string) :
  list_of_set l = [] <-> l = [].
Proof.
  split; intros E.
  - destruct l as [|x t]; [reflexivity|].
    assert (I : In x (list_of_set (x :: t)))
      by (apply list_of_set_In; now left).
    rewrite E in I. destruct I.
  - destruct (list_of_set l) as [|x t] eqn:L; [reflexivity|].
    assert (I : In x l) by (apply list_of_set_In; rewrite L; now left).
    rewrite E in I. destruct I.
Qed.

Lemma flat_map_at_most_one {A B} (f : A -> list B) (l : list A) :
  (forall a, (List.length (f a) <= 1)%nat) ->
  (List.length (flat_map f l) <= List.length l)%nat.
Proof.
  intros F. induction l as [|a t IH]; simpl; [lia|].
  rewrite length_app. specialize (F a). lia.
Qed.

Lemma flat_map_nil {A B} (f : A -> list B) (l : list A) :
  flat_map f l = [] <-> forall a, In a l -> f a = [].
Proof.
  induction l as [|a t IH]; simpl.
  - split; [intros _ a [] | reflexivity].
  - rewrite app_nil_iff, IH. split.
    + intros [E F] b [<-|I]; [exact E | now apply F].
    + intros F. split; [apply F; now left | intros b I; apply F; now right].
Qed.

(** X17: the skill matches reported for a program have no duplicates and
    are at most as many as the skills of the user; each is the title-cased
    name of a skill of the program that contains, or is contained in, a
    skill of the user, letter case aside; none is reported exactly when no
    skill of the user and skill of the program overlap in that way; an
    empty skill text overlaps with every skill. *)
Theorem X17_skill_matches (O : SetOrder) (course : Course.t)
    (user_skills : list string) :
  let result := _find_skill_matches course user_skills in
  NoDup result
  /\ (List.length result <= List.length user_skills)%nat
  /\ (forall t, In t result ->
        exists u sk,
          In u user_skills /\ In sk (Course.skills course)
          /\ t = PyTitle.title (Py.lower (Skill.name sk))
          /\ (substring_ci u (Skill.name sk)
              \/ substring_ci (Skill.name sk) u))
  /\ (result = [] <->
      forall u sk, In u user_skills -> In sk (Course.skills course) ->
                   ~ (substring_ci u (Skill.name sk)
                      \/ substring_ci (Skill.name sk) u))
  /\ (In EmptyString user_skills -> Course.skills course <> [] ->
      result <> []).
Proof.
  intros result. unfold _find_skill_matches in result.
  set (cs := map (fun skill => Py.lower (Skill.name skill))
               (Course.skills course)) in *.
  set (pick := fun user_skill =>
                 match find (skills_overlap user_skill) cs with
                 | Some course_skill => [PyTitle.title course_skill]
                 | None => []
                 end) in *.
  assert (Nil : result = [] <->
                forall u sk, In u user_skills ->
                             In sk (Course.skills course) ->
                             ~ (substring_ci u (Skill.name sk)
                                \/ substring_ci (Skill.name sk) u)).
  { unfold result. rewrite list_of_set_nil, flat_map_nil. split.
    - intros F u sk Iu Is V.
      specialize (F (Py.lower u) (in_map Py.lower _ _ Iu)). unfold pick in F.
      destruct (find (skills_overlap (Py.lower u)) cs) as [c|] eqn:Fi;
        [discriminate|].
      apply skills_overlap_iff in V.
      rewrite (find_none _ _ Fi (Py.lower (Skill.name sk))) in V;
        [discriminate|].
      unfold cs. apply in_map_iff. now exists sk.
    - intros F ul Iu. apply in_map_iff in Iu. destruct Iu as (u & <- & Iu).
      unfold pick.
      destruct (find (skills_overlap (Py.lower u)) cs) as [c|] eqn:Fi;
        [|reflexivity].
      apply find_some in Fi. destruct Fi as [Ic V].
      unfold cs in Ic. apply in_map_iff in Ic. destruct Ic as (sk & <- & Is).
      apply skills_overlap_iff in V. elim (F u sk Iu Is V). }
  repeat match goal with |- _ /\ _ => split end.
  - apply list_of_set_NoDup.
  - assert (B : (List.length result
                 <= List.length (flat_map pick (map Py.lower user_skills)))%nat).
    { apply NoDup_incl_length; [apply list_of_set_NoDup|].
      intros x I. exact (proj1 (list_of_set_In _ x) I). }
    assert (F : (List.length (flat_map pick (map Py.lower user_skills))
                 <= List.length (map Py.lower user_skills))%nat).
    { apply flat_map_at_most_one. intros a. unfold pick.
      destruct (find _ cs); simpl; lia. }
    rewrite length_map in F. lia.
  - intros t I. apply (proj1 (list_of_set_In _ t)) in I.
    apply in_flat_map in I. destruct I as (ul & Iu & I).
    apply in_map_iff in Iu. destruct Iu as (u & <- & Iu).
    unfold pick in I.
    destruct (find (skills_overlap (Py.lower u)) cs) as [c|] eqn:Fi;
      [|destruct I].
    destruct I as [<-|[]]. apply find_some in Fi. destruct Fi as [Ic V].
    unfold cs in Ic. apply in_map_iff in Ic. destruct Ic as (sk & <- & Is).
    exists u, sk. repeat split; try assumption.
    now apply skills_overlap_iff.
  - apply Nil.
  - intros Ie Ne E. destruct (Course.skills course) as [|sk rest] eqn:S;
      [congruence|].
    apply (proj1 Nil E EmptyString sk Ie (or_introl eq_refl)).
    left. exists EmptyString, (Py.lower (Skill.name sk)). reflexivity.
Qed.

Lemma X17_witness :
  _find_skill_matches (H := Demo.first_seen) Sample.berlin [EmptyString]
  <> [].
Proof.
  destruct (X17_skill_matches Demo.first_seen Sample.berlin [EmptyString])
    as (_ & _ & _ & _ & E).
  apply E; [now left | discriminate].
Defined.

Lemma gt_literal (x : Q) (values : list Q) (bound top : Q) :
  In x values ->
  Forall (fun v => v = top \/ Py.gt v bound = false) values ->
  Py.gt top bound = true ->
  ~ top <= bound ->
  (Py.gt x bound = true <-> x = top).
Proof.
  intros I F G N. rewrite Forall_forall in F.
  destruct (F x I) as [->|L]; [tauto|].
  rewrite L. split; [discriminate|]. intros ->. congruence.
Qed.

(** X18: in the explanation of a program scored by the engine, the note
    "Good location match" is present exactly when the location score is
    1.0 and the note "Aligns with your career goals" exactly when the career
    score is 1.0: a match by country only (0.7) or by the description of an
    outcome only (0.8) is not mentioned.  Without any note the explanation
    is the generic statement. *)
Theorem X18_explanation_notes (T : Tfidf)
    (self : CourseRecommendationEngine) (course : Course.t)
    (request : Request) (user_query : string) (course_index : nat)
    (skill_matches : list string) :
  let score_data :=
    _calculate_course_score self course request user_query course_index in
  let notes := explanation_notes skill_matches score_data in
  (In "Good location match" notes
   <-> _calculate_location_score course request = 1.0)
  /\ (In "Aligns with your career goals" notes
      <-> _calculate_career_score course request = 1.0)
  /\ (notes = [] ->
      _generate_match_explanation skill_matches score_data
      = "General compatibility based on your preferences.").
Proof.
  intros score_data notes. unfold notes, explanation_notes.
  cbn [score_data _calculate_course_score ScoreData.location_score
       ScoreData.career_score ScoreData.content_score].
  assert (L : Py.gt (_calculate_location_score course request) 0.8 = true
              <-> _calculate_location_score course request = 1.0).
  { apply (gt_literal _ _ _ _ (location_score_values course request)).
    - repeat constructor; (now left) || (right; reflexivity).
    - reflexivity.
    - lra. }
  assert (C : Py.gt (_calculate_career_score course request) 0.8 = true
              <-> _calculate_career_score course request = 1.0).
  { apply (gt_literal _ _ _ _ (career_score_values course request)).
    - repeat constructor; (now left) || (right; reflexivity).
    - reflexivity.
    - lra. }
  split; [|split].
  - rewrite <- L. rewrite !in_app_iff.
    destruct (truthy skill_matches),
      (Py.gt (_calculate_location_score course request) 0.8),
      (Py.gt (_calculate_career_score course request) 0.8),
      (Py.gt (_calculate_content_similarity self user_query course_index)
         0.7); simpl; intuition (try discriminate; try congruence).
  - rewrite <- C. rewrite !in_app_iff.
    destruct (truthy skill_matches),
      (Py.gt (_calculate_location_score course request) 0.8),
      (Py.gt (_calculate_career_score course request) 0.8),
      (Py.gt (_calculate_content_similarity self user_query course_index)
         0.7); simpl; intuition (try discriminate; try congruence).
  - intros E. unfold _generate_match_explanation.
    fold score_data.
    change (explanation_notes skill_matches score_data) with notes.
    unfold notes, explanation_notes.
    cbn [score_data _calculate_course_score ScoreData.location_score
         ScoreData.career_score ScoreData.content_score].
    rewrite E. reflexivity.
Qed.

Lemma X18_witness :
  In "Good location match"
    (explanation_notes []
       (Demo.scored Demo.online_only 2 Sample.remote)).
Proof.
  destruct (X18_explanation_notes Sample.toy Sample.ready Sample.remote
              Demo.online_only (_build_user_query Demo.online_only) 2 [])
    as (L & _).
  apply L. reflexivity.
Defined.

Example title_examples :
  PyTitle.title "machine learning" = "Machine Learning"
  /\ PyTitle.title "node.js" = "Node.Js"
  /\ PyTitle.title "c++" = "C++"
  /\ PyTitle.title "3d modelling" = "3D Modelling".
Proof. repeat split; reflexivity. Qed.

Example skill_matches_example :
  _find_skill_matches (H := Demo.first_seen) Sample.berlin
    ["PYTHON"; "python programming"; "cooking"] = ["Python"].
Proof. reflexivity. Qed.

Example explanation_example :
  _generate_match_explanation ["Python"]
    (Demo.scored Demo.online_only 2 Sample.remote)
  = "Matches 1 of your skills: Python. Good location match. Aligns with your career goals.".
Proof. reflexivity. Qed.

(** * Direct skill matches *)

(** X19: every directly matched skill is a known skill that occurs in the
    text, with a confidence between 0.5 and 0.9 that grows with the length
    of the skill name and is 0.9 from twenty characters on; every known
    skill that occurs in the text is matched. *)
Theorem X19_direct_match_confidence (known_skills : list string)
    (text : string) :
  (forall skill confidence,
      In (skill, confidence) (_extract_direct_matches known_skills text) ->
      In skill known_skills /\ is_substring skill text
      /\ confidence = direct_confidence skill
      /\ 0.5 <= confidence <= 0.9)
  /\ (forall skill, In skill known_skills -> is_substring skill text ->
        In (skill, direct_confidence skill)
           (_extract_direct_matches known_skills text))
  /\ (forall a b, (String.length a <= String.length b)%nat ->
        direct_confidence a <= direct_confidence b)
  /\ (forall skill, direct_confidence skill == 0.9
                    <-> (20 <= String.length skill)%nat).
Proof.
  assert (R : forall s,
             0.5 <= direct_confidence s <= 0.9
             /\ (direct_confidence s == 0.9
                 <-> (20 <= String.length s)%nat)
             /\ forall t, (String.length s <= String.length t)%nat ->
                          direct_confidence s <= direct_confidence t).
  { assert (P : forall n, 0 <= inject_Z (Z.of_nat n)).
    { intros n. change 0 with (inject_Z 0). rewrite <- Zle_Qle. lia. }
    assert (M : forall n m, (n <= m)%nat ->
                            inject_Z (Z.of_nat n) <= inject_Z (Z.of_nat m)).
    { intros n m L. rewrite <- Zle_Qle. lia. }
    assert (S : forall n, inject_Z (Z.of_nat n) < 20 <-> (n < 20)%nat).
    { intros n. change 20 with (inject_Z 20). rewrite <- Zlt_Qlt. lia. }
    intros s. unfold direct_confidence.
    pose proof (P (String.length s)) as Ps.
    pose proof (S (String.length s)) as Ss.
    set (n := inject_Z (Z.of_nat (String.length s))) in *.
    destruct (Py.gt 0.9 (0.5 + n * 0.02)) eqn:G;
      [apply gt_iff in G | apply gt_false in G].
    - split; [split; lra|]. split.
      + split; [intros E; lra | intros L].
        assert (n < 20) by lra. apply Ss in H. lia.
      + intros t L. pose proof (M _ _ L) as Mt. fold n in Mt.
        set (m := inject_Z (Z.of_nat (String.length t))) in *.
        destruct (Py.gt 0.9 (0.5 + m * 0.02)) eqn:G';
          [apply gt_iff in G' | apply gt_false in G']; lra.
    - split; [split; lra|]. split.
      + split; [intros _ | reflexivity].
        destruct (Nat.lt_ge_cases (String.length s) 20) as [L|L];
          [|exact L].
        apply Ss in L. lra.
      + intros t L. pose proof (M _ _ L) as Mt. fold n in Mt.
        set (m := inject_Z (Z.of_nat (String.length t))) in *.
        destruct (Py.gt 0.9 (0.5 + m * 0.02)) eqn:G';
          [apply gt_iff in G' | apply gt_false in G']; lra. }
  unfold _extract_direct_matches.
  repeat match goal with |- _ /\ _ => split end.
  - intros skill confidence I. apply in_map_iff in I.
    destruct I as (s & E & I). injection E as <- <-.
    apply filter_In in I. destruct I as [I C]. apply contains_iff in C.
    destruct (R s) as (B & _). tauto.
  - intros skill I C. apply in_map_iff. exists skill.
    split; [reflexivity|]. apply filter_In. split; [exact I|].
    now apply contains_iff.
  - intros a b L. now apply (R a).
  - intros skill. apply (R skill).
Qed.

Lemma X19_witness :
  direct_confidence "sql" <= direct_confidence "machine learning"
  /\ In ("sql", direct_confidence "sql")
        (_extract_direct_matches ["python"; "sql"] "i know sql and c").
Proof.
  destruct (X19_direct_match_confidence ["python"; "sql"]
              "i know sql and c") as (_ & C & M & _).
  split.
  - apply M. simpl. lia.
  - apply C; [right; now left|]. apply contains_iff. reflexivity.
Defined.
